(** * railway-deploy.py: the deploy runner, embedded and verified

    The script drives the external [railway] command-line tool through
    [subprocess.run].  Everything the script does is an effect on the process
    (printing, assigning [os.environ], starting a subprocess, sleeping), so the
    embedding is a state-and-exception monad over the process state, and the
    process state carries the history of effects in the order they happened.

    There are two embeddings of the same code.

    The first one is the script on a cooperative console.
    - Text is a sequence of bytes (UTF-8), as [string].
    - The external tool is a parameter [os]: a function from the history so
      far and the invocation to what [subprocess.run] does (it returns a
      completed process, or raises).  Theorems quantify over every [os].
    - Exceptions are the instances of Python's [Exception] class that a call
      can raise, with [subprocess.TimeoutExpired] told apart because the code
      tells it apart, and [print], [time.sleep] and the assignment to
      [os.environ] succeed.
    - Timeouts are integers, as they are at every call site.

    The second one, [Full], drops what the first takes for granted: [print]
    and [time.sleep] can raise, a call can raise [KeyboardInterrupt] or
    [SystemExit], and [except Exception] is a test on the class.  What
    escapes [run_command] and [main], and how the process then ends, is
    stated there.  [script_simulates] shows that the first embedding is the
    second one in the worlds that cooperate. *)

From Stdlib Require Import Ascii String ZArith List.
From stdpp Require Import base gmap strings list pretty.

Open Scope string_scope.
Open Scope list_scope.
Open Scope Z_scope.

(** ** Python values *)

(** [subprocess.CompletedProcess], with [capture_output=True, text=True]. *)
Record CompletedProcess := {
  returncode : Z;
  stdout : string;
  stderr : string
}.

(** The exceptions of the model; [Exception msg] is any instance of
    [Exception] other than [TimeoutExpired], with [msg] its [str(e)]. *)
Inductive PyException :=
| TimeoutExpired
| Exception (msg : string).

(** How a call ends: it returns a value or it raises. *)
Inductive Completion (A : Type) :=
| Returned (a : A)
| Raised (e : PyException).
Arguments Returned {A} a.
Arguments Raised {A} e.

(** ** The process and its history *)

(** The arguments of one [subprocess.run] call, with the environment the
    child inherits ([shell], [capture_output] and [text] are always [True]). *)
Record Invocation := {
  inv_cmd : string;
  inv_timeout : Z;
  inv_cwd : string;
  inv_env : gmap string string
}.

Inductive Event :=
| EvPrint (text : string)
| EvSetEnv (key value : string)
| EvSubprocess (i : Invocation) (r : Completion CompletedProcess)
| EvSleep (seconds : Z).

Record Process := {
  environ : gmap string string;
  history : list Event
}.

Definition record (e : Event) (p : Process) : Process :=
  {| environ := environ p; history := history p ++ [e] |}.

(** The external world: what [subprocess.run] does, given all that happened
    before and the invocation. *)
Definition OS : Type := list Event → Invocation → Completion CompletedProcess.

(** ** The monad of script code *)

Definition Script (A : Type) : Type := Process → Completion A * Process.

#[global] Instance script_ret : MRet Script := λ A a p, (Returned a, p).

#[global] Instance script_bind : MBind Script := λ A B f m p,
  match m p with
  | (Returned a, p') => f a p'
  | (Raised e, p') => (Raised e, p')
  end.

(** [try: body  except ...: handler]: the handler runs in the state the body
    left behind. *)
Definition try_except {A} (body : Script A) (handler : PyException → Script A)
  : Script A := λ p,
  match body p with
  | (Returned a, p') => (Returned a, p')
  | (Raised e, p') => handler e p'
  end.

(** [for x in l: body x] *)
Fixpoint for_each {A} (l : list A) (body : A → Script unit) : Script unit :=
  match l with
  | [] => mret tt
  | x :: l' => body x;; for_each l' body
  end.

(** ** Primitives *)

Definition print (text : string) : Script unit :=
  λ p, (Returned tt, record (EvPrint text) p).

(** [os.environ[key] = value] *)
Definition os_environ_set (key value : string) : Script unit :=
  λ p, (Returned tt,
        {| environ := <[key := value]> (environ p);
           history := history p ++ [EvSetEnv key value] |}).

Definition time_sleep (seconds : Z) : Script unit :=
  λ p, (Returned tt, record (EvSleep seconds) p).

Definition invocation (cmd : string) (timeout : Z) (cwd : string)
    (env : gmap string string) : Invocation :=
  {| inv_cmd := cmd; inv_timeout := timeout; inv_cwd := cwd; inv_env := env |}.

(** [subprocess.run(cmd, shell=True, capture_output=True, text=True,
    timeout=timeout, cwd=cwd)]: the child inherits [os.environ]. *)
Definition subprocess_run (os : OS) (cmd : string) (timeout : Z) (cwd : string)
  : Script CompletedProcess := λ p,
  let i := invocation cmd timeout cwd (environ p) in
  let r := os (history p) i in
  (r, record (EvSubprocess i r) p).

(** ** Text helpers *)

Definition nl : string := String "010"%char EmptyString.
Definition dquote : string := String "034"%char EmptyString.

(** [s * n] on Python strings *)
Fixpoint str_mul (s : string) (n : nat) : string :=
  match n with
  | O => EmptyString
  | S n' => s +:+ str_mul s n'
  end.

(** Truth value of an [Optional[str]]: [None] and the empty text are false. *)
Definition truthy (v : option string) : bool :=
  match v with
  | None => false
  | Some EmptyString => false
  | Some (String _ _) => true
  end.

(** ** run_command (lines 12-36) *)

Definition default_timeout : Z := 30.
Definition project_dir : string := "D:\Claude\Projects\auto-alert-saas".

(** [timeout = None] is a call that leaves the keyword argument out. *)
Definition run_command (os : OS) (cmd : string) (timeout : option Z)
  : Script (option string) :=
  let timeout := default default_timeout timeout in
  try_except
    (print ("🔄 Executing: " +:+ cmd);;
     result ← subprocess_run os cmd timeout project_dir;
     if returncode result =? 0 then
       print ("✅ Success: " +:+ stdout result);;
       mret (Some (stdout result))
     else
       print ("❌ Error: " +:+ stderr result);;
       mret None)
    (λ e,
       match e with
       | TimeoutExpired =>
           print ("⏰ Timeout after " +:+ pretty timeout +:+ "s");;
           mret None
       | Exception msg =>
           print ("💥 Exception: " +:+ msg);;
           mret None
       end).

(** ** main (lines 38-75) *)

Definition railway_token : string := "fbe36775-4296-484e-bd0f-72aa378e01e6".

(** The dict literal of lines 53-57; [items()] yields it in this order. *)
Definition env_vars : list (string * string) :=
  [ ("NODE_ENV", "production");
    ("PORT", "3001");
    ("WEBHOOK_SECRET", "auto-alert-webhook-secret-2024") ].

(** [f'railway variables --set "{key}={value}"'] *)
Definition set_command (key value : string) : string :=
  "railway variables --set " +:+ dquote +:+ key +:+ "=" +:+ value +:+ dquote.

Definition status_command : string := "railway status".
Definition deploy_command : string := "railway up --detach".

Definition success_message : string :=
  nl +:+ "✅ Deployment initiated successfully!".
Definition failure_message : string :=
  nl +:+ "❌ Deployment failed - check Railway CLI manually".

Section Main.
(** [main] looks the global [run_command] up when it calls it; the body is
    written over whatever that name is bound to. *)
Variable run_command : string → option Z → Script (option string).

(** The loop body, lines 60-62. *)
Definition set_variable (entry : string * string) : Script unit :=
  let '(key, value) := entry in
  let cmd := set_command key value in
  _ ← run_command cmd (Some 10);
  time_sleep 1.

(** Lines 40-66: everything up to and including the deploy call. *)
Definition main_until_deploy : Script (option string) :=
  print "🚂 Railway Auto-Deploy für Auto-Alert SaaS";;
  print (str_mul "=" 50);;
  os_environ_set "RAILWAY_TOKEN" railway_token;;
  print (nl +:+ "📊 1. Checking Railway Status...");;
  status ← run_command status_command None;
  print (nl +:+ "🔑 2. Setting Environment Variables...");;
  for_each env_vars set_variable;;
  print (nl +:+ "🚀 3. Starting Deployment...");;
  run_command deploy_command (Some 120).

(** Lines 68-75: the branch on the deploy result and the last line. *)
Definition main_report (deploy : option string) : Script unit :=
  (if truthy deploy then
     print success_message;;
     print "🔍 Check status with: railway logs";;
     print "🌐 Open dashboard: https://railway.app/dashboard"
   else
     print failure_message);;
  print (nl +:+ "🎉 Railway Auto-Deploy Complete!").

Definition main_body : Script unit :=
  deploy ← main_until_deploy;
  main_report deploy.
End Main.

Definition main (os : OS) : Script unit := main_body (run_command os).

(** ** The script as a program (lines 77-78) *)

Definition start (env : gmap string string) : Process :=
  {| environ := env; history := [] |}.

Definition script (os : OS) (env : gmap string string)
  : Completion unit * Process := main os (start env).

(** The interpreter exits with 0 when the module body returns and with 1 when
    an exception reaches the top level. *)
Definition exit_code (c : Completion unit) : Z :=
  match c with
  | Returned _ => 0
  | Raised _ => 1
  end.

(** ** Views of a history *)

(** What the script does to the world, prints left out. *)
Inductive Action :=
| Assign (key value : string)
| Issue (cmd : string) (timeout : Z)
| Pause (seconds : Z).

Definition action_of (e : Event) : option Action :=
  match e with
  | EvPrint _ => None
  | EvSetEnv k v => Some (Assign k v)
  | EvSubprocess i _ => Some (Issue (inv_cmd i) (inv_timeout i))
  | EvSleep n => Some (Pause n)
  end.

Definition invocation_of (e : Event) : option Invocation :=
  match e with
  | EvSubprocess i _ => Some i
  | _ => None
  end.

Definition outcome_of (e : Event) : option (Completion CompletedProcess) :=
  match e with
  | EvSubprocess _ r => Some r
  | _ => None
  end.

Definition printed_of (e : Event) : option string :=
  match e with
  | EvPrint text => Some text
  | _ => None
  end.

Definition actions (h : list Event) : list Action := omap action_of h.
Definition invocations (h : list Event) : list Invocation := omap invocation_of h.
Definition commands (h : list Event) : list string := inv_cmd <$> invocations h.
Definition outcomes (h : list Event) : list (Completion CompletedProcess) :=
  omap outcome_of h.
Definition printed (h : list Event) : list string := omap printed_of h.

(** An external world that answers the n-th subprocess of a run with the
    n-th entry of a script of outcomes (and with a clean exit after that). *)
Definition replay (rs : list (Completion CompletedProcess)) : OS :=
  λ h _, default
           (Returned {| returncode := 0; stdout := EmptyString; stderr := EmptyString |})
           (rs !! length (outcomes h)).

Definition exited (rc : Z) (out err : string) : Completion CompletedProcess :=
  Returned {| returncode := rc; stdout := out; stderr := err |}.

(** * The script in a world that can refuse and interrupt

    The embedding above takes [print] and [time.sleep] to succeed and lets a
    call raise instances of [Exception] only.  The embedding of this part
    takes neither for granted: the world also says what [print] and
    [time.sleep] raise, if anything, and a call can raise an exception that
    is not an instance of [Exception].  [except Exception] is then the class
    test it is in Python.  The code is the same, line for line; what is
    shared with the first embedding (the completed process, the invocation,
    the texts, the mapping) is reused. *)
Module Full.

(** Exceptions by class.  [TimeoutExpired] and [Exception msg] (any other
    instance of [Exception], [msg] its [str(e)]) are instances of
    [Exception]; [KeyboardInterrupt] and [SystemExit] derive from
    [BaseException] only. *)
Inductive PyBaseException :=
| TimeoutExpired
| Exception (msg : string)
| KeyboardInterrupt
| SystemExit (code : Z).

(** [isinstance(e, Exception)] *)
Definition is_Exception (e : PyBaseException) : bool :=
  match e with
  | TimeoutExpired | Exception _ => true
  | KeyboardInterrupt | SystemExit _ => false
  end.

Inductive Completion (A : Type) :=
| Returned (a : A)
| Raised (e : PyBaseException).
Arguments Returned {A} a.
Arguments Raised {A} e.

Inductive Event :=
| EvPrint (text : string)
| EvSetEnv (key value : string)
| EvSubprocess (i : Invocation) (r : Completion CompletedProcess)
| EvSleep (seconds : Z).

Record Process := {
  environ : gmap string string;
  history : list Event
}.

Definition record (e : Event) (p : Process) : Process :=
  {| environ := environ p; history := history p ++ [e] |}.

(** The world: how a subprocess call ends, and what a [print] of a text or
    a sleep raises ([None]: nothing, it succeeds), given all that happened
    before. *)
Record World := {
  subprocess_outcome : list Event → Invocation → Completion CompletedProcess;
  print_error : list Event → string → option PyBaseException;
  sleep_error : list Event → Z → option PyBaseException
}.

Definition Script (A : Type) : Type := Process → Completion A * Process.

#[global] Instance script_ret : MRet Script := λ A a p, (Returned a, p).

#[global] Instance script_bind : MBind Script := λ A B f m p,
  match m p with
  | (Returned a, p') => f a p'
  | (Raised e, p') => (Raised e, p')
  end.

(** [try: body  except ...]: [clauses e] is the handler of the first clause
    whose class [e] is an instance of, [None] when there is no such clause
    and [e] goes on to the caller. *)
Definition try_except {A} (body : Script A)
    (clauses : PyBaseException → option (Script A)) : Script A := λ p,
  match body p with
  | (Returned a, p') => (Returned a, p')
  | (Raised e, p') =>
      match clauses e with
      | Some handler => handler p'
      | None => (Raised e, p')
      end
  end.

Fixpoint for_each {A} (l : list A) (body : A → Script unit) : Script unit :=
  match l with
  | [] => mret tt
  | x :: l' => body x;; for_each l' body
  end.

(** A [print] that raises has written nothing. *)
Definition print (w : World) (text : string) : Script unit := λ p,
  match print_error w (history p) text with
  | Some e => (Raised e, p)
  | None => (Returned tt, record (EvPrint text) p)
  end.

Definition os_environ_set (key value : string) : Script unit :=
  λ p, (Returned tt,
        {| environ := <[key := value]> (environ p);
           history := history p ++ [EvSetEnv key value] |}).

Definition time_sleep (w : World) (seconds : Z) : Script unit := λ p,
  match sleep_error w (history p) seconds with
  | Some e => (Raised e, p)
  | None => (Returned tt, record (EvSleep seconds) p)
  end.

Definition subprocess_run (w : World) (cmd : string) (timeout : Z)
    (cwd : string) : Script CompletedProcess := λ p,
  let i := invocation cmd timeout cwd (environ p) in
  let r := subprocess_outcome w (history p) i in
  (r, record (EvSubprocess i r) p).

(** run_command (lines 12-36) *)
Definition run_command (w : World) (cmd : string) (timeout : option Z)
  : Script (option string) :=
  let timeout := default default_timeout timeout in
  try_except
    (print w ("🔄 Executing: " +:+ cmd);;
     result ← subprocess_run w cmd timeout project_dir;
     if returncode result =? 0 then
       print w ("✅ Success: " +:+ stdout result);;
       mret (Some (stdout result))
     else
       print w ("❌ Error: " +:+ stderr result);;
       mret None)
    (λ e,
       match e with
       | TimeoutExpired =>
           Some (print w ("⏰ Timeout after " +:+ pretty timeout +:+ "s");;
                 mret None)
       | Exception msg =>
           Some (print w ("💥 Exception: " +:+ msg);;
                 mret None)
       | KeyboardInterrupt | SystemExit _ => None
       end).

Section Main.
Variable w : World.
Variable run_command : string → option Z → Script (option string).

(** The loop body, lines 60-62. *)
Definition set_variable (entry : string * string) : Script unit :=
  let '(key, value) := entry in
  let cmd := set_command key value in
  _ ← run_command cmd (Some 10);
  time_sleep w 1.

(** Lines 40-66. *)
Definition main_until_deploy : Script (option string) :=
  print w "🚂 Railway Auto-Deploy für Auto-Alert SaaS";;
  print w (str_mul "=" 50);;
  os_environ_set "RAILWAY_TOKEN" railway_token;;
  print w (nl +:+ "📊 1. Checking Railway Status...");;
  status ← run_command status_command None;
  print w (nl +:+ "🔑 2. Setting Environment Variables...");;
  for_each env_vars set_variable;;
  print w (nl +:+ "🚀 3. Starting Deployment...");;
  run_command deploy_command (Some 120).

(** Lines 68-75. *)
Definition main_report (deploy : option string) : Script unit :=
  (if truthy deploy then
     print w success_message;;
     print w "🔍 Check status with: railway logs";;
     print w "🌐 Open dashboard: https://railway.app/dashboard"
   else
     print w failure_message);;
  print w (nl +:+ "🎉 Railway Auto-Deploy Complete!").

Definition main_body : Script unit :=
  deploy ← main_until_deploy;
  main_report deploy.
End Main.

Definition main (w : World) : Script unit := main_body w (run_command w).

Definition start (env : gmap string string) : Process :=
  {| environ := env; history := [] |}.

Definition script (w : World) (env : gmap string string)
  : Completion unit * Process := main w (start env).

(** How the process ends: with an exit code, or by the interrupt (the
    status is then the platform's, and not 0). *)
Inductive Termination :=
| Exit (code : Z)
| Interrupted.

(** The module body returned: 0.  [SystemExit]: its code.
    [KeyboardInterrupt]: the interrupt.  Any other exception at the top
    level: a traceback and 1. *)
Definition termination (c : Completion unit) : Termination :=
  match c with
  | Returned _ => Exit 0
  | Raised (SystemExit code) => Exit code
  | Raised KeyboardInterrupt => Interrupted
  | Raised _ => Exit 1
  end.

(** Views of a history. *)
Definition invocation_of (e : Event) : option Invocation :=
  match e with
  | EvSubprocess i _ => Some i
  | _ => None
  end.

Definition printed_of (e : Event) : option string :=
  match e with
  | EvPrint text => Some text
  | _ => None
  end.

Definition invocations (h : list Event) : list Invocation := omap invocation_of h.
Definition commands (h : list Event) : list string := inv_cmd <$> invocations h.
Definition printed (h : list Event) : list string := omap printed_of h.

(** What [run_command] hands back for an outcome that it does not let
    through, and the line it prints about it (none for one it lets
    through). *)
Definition result_for (r : Completion CompletedProcess) : option string :=
  match r with
  | Returned cp => if returncode cp =? 0 then Some (stdout cp) else None
  | Raised _ => None
  end.

Definition line_for (timeout : Z) (r : Completion CompletedProcess) : string :=
  match r with
  | Returned cp =>
      if returncode cp =? 0 then "✅ Success: " +:+ stdout cp
      else "❌ Error: " +:+ stderr cp
  | Raised TimeoutExpired => "⏰ Timeout after " +:+ pretty timeout +:+ "s"
  | Raised (Exception msg) => "💥 Exception: " +:+ msg
  | Raised _ => EmptyString
  end.

(** The exception of an outcome that no clause of [run_command] catches. *)
Definition escaping (r : Completion CompletedProcess) : option PyBaseException :=
  match r with
  | Returned _ => None
  | Raised e => if is_Exception e then None else Some e
  end.

(** Worlds by what they spare the script. *)
Definition console_accepts (w : World) : Prop :=
  ∀ h text, print_error w h text = None.

Definition sleeps_through (w : World) : Prop :=
  ∀ h seconds, sleep_error w h seconds = None.

Definition raises_Exceptions_only (w : World) : Prop :=
  ∀ h i e, subprocess_outcome w h i = Raised e → is_Exception e = true.

(** [ends m p Q]: run in [p], the code [m] ends, returning or raising, in a
    way that [Q] holds of. *)
Definition ends {A} (m : Script A) (p : Process)
    (Q : Completion A → Process → Prop) : Prop :=
  ∃ c p', m p = (c, p') ∧ Q c p'.

(** A text that the ASCII codec encodes. *)
Fixpoint is_ascii (s : string) : bool :=
  match s with
  | EmptyString => true
  | String (Ascii _ _ _ _ _ _ _ high) s' => negb high && is_ascii s'
  end.

(** Every subprocess exits cleanly and says "deployed"; the console is
    ASCII only, as with PYTHONIOENCODING=ascii. *)
Definition w_ascii_console : World :=
  {| subprocess_outcome := λ _ _,
       Returned {| returncode := 0; stdout := "deployed";
                   stderr := EmptyString |};
     print_error := λ _ text,
       if is_ascii text then None
       else Some (Exception "'ascii' codec can't encode character");
     sleep_error := λ _ _, None |}.

(** The console takes everything; every subprocess call is interrupted from
    the keyboard. *)
Definition w_interrupted : World :=
  {| subprocess_outcome := λ _ _, Raised KeyboardInterrupt;
     print_error := λ _ _, None;
     sleep_error := λ _ _, None |}.

(** The console takes everything; every subprocess runs into its timeout. *)
Definition w_timeout : World :=
  {| subprocess_outcome := λ _ _, Raised TimeoutExpired;
     print_error := λ _ _, None;
     sleep_error := λ _ _, None |}.

(** The first [after] subprocesses exit cleanly, the next call is
    interrupted from the keyboard. *)
Definition w_interrupted_after (after : nat) : World :=
  {| subprocess_outcome := λ h _,
       if (length (invocations h) <? after)%nat
       then Returned {| returncode := 0; stdout := "ok"; stderr := EmptyString |}
       else Raised KeyboardInterrupt;
     print_error := λ _ _, None;
     sleep_error := λ _ _, None |}.



End Full.

(** ** The first embedding inside the second

    A world of the first embedding is a world of the second whose console
    accepts everything, whose sleeps are not interrupted and whose
    subprocess calls raise instances of [Exception] only. *)

Definition lift_exception (e : PyException) : Full.PyBaseException :=
  match e with
  | TimeoutExpired => Full.TimeoutExpired
  | Exception msg => Full.Exception msg
  end.

Definition lift_completion {A} (c : Completion A) : Full.Completion A :=
  match c with
  | Returned a => Full.Returned a
  | Raised e => Full.Raised (lift_exception e)
  end.

Definition lift_event (e : Event) : Full.Event :=
  match e with
  | EvPrint text => Full.EvPrint text
  | EvSetEnv key value => Full.EvSetEnv key value
  | EvSubprocess i r => Full.EvSubprocess i (lift_completion r)
  | EvSleep seconds => Full.EvSleep seconds
  end.

Definition lift_process (p : Process) : Full.Process :=
  {| Full.environ := environ p; Full.history := lift_event <$> history p |}.

Definition lower_exception (e : Full.PyBaseException) : option PyException :=
  match e with
  | Full.TimeoutExpired => Some TimeoutExpired
  | Full.Exception msg => Some (Exception msg)
  | Full.KeyboardInterrupt | Full.SystemExit _ => None
  end.

Definition lower_completion {A} (c : Full.Completion A)
  : option (Completion A) :=
  match c with
  | Full.Returned a => Some (Returned a)
  | Full.Raised e => Raised <$> lower_exception e
  end.

Definition lower_event (e : Full.Event) : option Event :=
  match e with
  | Full.EvPrint text => Some (EvPrint text)
  | Full.EvSetEnv key value => Some (EvSetEnv key value)
  | Full.EvSubprocess i r => EvSubprocess i <$> lower_completion r
  | Full.EvSleep seconds => Some (EvSleep seconds)
  end.

Definition cooperative (os : OS) : Full.World :=
  {| Full.subprocess_outcome := λ h i, lift_completion (os (omap lower_event h) i);
     Full.print_error := λ _ _, None;
     Full.sleep_error := λ _ _, None |}.

(** [simulates m' m]: from corresponding states, [m'] in the second
    embedding and [m] in the first end alike, in corresponding states. *)
Definition simulates {A} (m' : Full.Script A) (m : Script A) : Prop :=
  ∀ p : Process,
    m' (lift_process p) = (lift_completion (m p).1, lift_process (m p).2).

(** * Vocabulary of the statements *)

(** ** Outcomes, results and events *)

(** What [run_command] hands back for an outcome of the subprocess, and the
    line it prints about it. *)
Definition result_for (r : Completion CompletedProcess) : option string :=
  match r with
  | Returned cp => if returncode cp =? 0 then Some (stdout cp) else None
  | Raised _ => None
  end.

Definition line_for (timeout : Z) (r : Completion CompletedProcess) : string :=
  match r with
  | Returned cp =>
      if returncode cp =? 0 then "✅ Success: " +:+ stdout cp
      else "❌ Error: " +:+ stderr cp
  | Raised TimeoutExpired => "⏰ Timeout after " +:+ pretty timeout +:+ "s"
  | Raised (Exception msg) => "💥 Exception: " +:+ msg
  end.

(** The three events of a call. *)
Definition call_events (cmd : string) (timeout : Z) (env : gmap string string)
    (r : Completion CompletedProcess) : list Event :=
  [ EvPrint ("🔄 Executing: " +:+ cmd);
    EvSubprocess (invocation cmd timeout project_dir env) r;
    EvPrint (line_for timeout r) ].

(** The outcome the world gives to a call of [run_command] made in [p]. *)
Definition outcome_at (os : OS) (cmd : string) (timeout : option Z)
    (p : Process) : Completion CompletedProcess :=
  os (history p ++ [EvPrint ("🔄 Executing: " +:+ cmd)])
     (invocation cmd (default default_timeout timeout) project_dir (environ p)).

(** The events of lines 40-66, given the environment after the assignment
    and the outcomes of the five subprocesses. *)
Definition events_until_deploy (env : gmap string string)
    (r1 r2 r3 r4 r5 : Completion CompletedProcess) : list Event :=
  [ EvPrint "🚂 Railway Auto-Deploy für Auto-Alert SaaS";
    EvPrint (str_mul "=" 50);
    EvSetEnv "RAILWAY_TOKEN" railway_token;
    EvPrint (nl +:+ "📊 1. Checking Railway Status...") ]
  ++ call_events status_command 30 env r1
  ++ [ EvPrint (nl +:+ "🔑 2. Setting Environment Variables...") ]
  ++ call_events (set_command "NODE_ENV" "production") 10 env r2
  ++ [ EvSleep 1 ]
  ++ call_events (set_command "PORT" "3001") 10 env r3
  ++ [ EvSleep 1 ]
  ++ call_events (set_command "WEBHOOK_SECRET" "auto-alert-webhook-secret-2024")
       10 env r4
  ++ [ EvSleep 1 ]
  ++ [ EvPrint (nl +:+ "🚀 3. Starting Deployment...") ]
  ++ call_events deploy_command 120 env r5.

(** The events of lines 68-75. *)
Definition events_of_report (deploy : option string) : list Event :=
  (if truthy deploy then
     [ EvPrint success_message;
       EvPrint "🔍 Check status with: railway logs";
       EvPrint "🌐 Open dashboard: https://railway.app/dashboard" ]
   else
     [ EvPrint failure_message ])
  ++ [ EvPrint (nl +:+ "🎉 Railway Auto-Deploy Complete!") ].

Definition report_lines (deploy : option string) : list string :=
  (if truthy deploy then
     [ success_message;
       "🔍 Check status with: railway logs";
       "🌐 Open dashboard: https://railway.app/dashboard" ]
   else
     [ failure_message ])
  ++ [ nl +:+ "🎉 Railway Auto-Deploy Complete!" ].

Definition starts_with_newline (s : string) : bool :=
  match s with
  | String a _ => Ascii.eqb a "010"
  | EmptyString => false
  end.

(** The deploy result is true exactly for an exit with code 0 and a
    non-empty standard output. *)
Definition clean_nonempty (r : Completion CompletedProcess) : Prop :=
  ∃ cp : CompletedProcess,
    r = Returned cp ∧ returncode cp = 0 ∧ stdout cp ≠ EmptyString.

(** [emits m p a env evs]: run in [p], the code [m] returns [a], leaves the
    environment [env] and appends the events [evs] to the history. *)
Definition emits {A} (m : Script A) (p : Process) (a : A)
    (env : gmap string string) (evs : list Event) : Prop :=
  m p = (Returned a, {| environ := env; history := history p ++ evs |}).

(** [returns m p Q]: run in [p], the code [m] returns, and the value and the
    state it returns satisfy [Q]. *)
Definition returns {A} (m : Script A) (p : Process)
    (Q : A → Process → Prop) : Prop :=
  ∃ a p', m p = (Returned a, p') ∧ Q a p'.

(** [relabel g callee] behaves as [callee] does, but hands back [g cmd x]
    where [callee] hands back [x]. *)
Definition relabel (g : string → option string → option string)
    (callee : string → option Z → Script (option string))
  : string → option Z → Script (option string) :=
  λ cmd timeout, x ← callee cmd timeout; mret (g cmd x).

(** Every result but the deploy result is thrown away. *)
Definition keep_deploy_only (cmd : string) (x : option string) : option string :=
  if String.eqb cmd deploy_command then x else None.

(** A callee that fills the default in before it calls [run_command]. *)
Definition run_command_explicit (os : OS) (cmd : string) (timeout : option Z)
  : Script (option string) :=
  run_command os cmd (Some (default default_timeout timeout)).

(** ** Some worlds *)

Definition os_exit_2 : OS := λ _ _, exited 2 "partial" "not logged in".

Definition os_timeout : OS := λ _ _, Raised TimeoutExpired.

Definition os_deployed : OS := λ _ _, exited 0 "deployed" EmptyString.

Definition os_silent : OS := λ _ _, exited 0 EmptyString EmptyString.

(** The world of [os_deployed], with a warning on standard error. *)
Definition os_deployed_warning : OS :=
  λ _ _, exited 0 "deployed" "warning: update available".

(** An initial environment that already has a token and a search path. *)
Definition env_with_token : gmap string string :=
  <["RAILWAY_TOKEN" := "old-token"]> (<["PATH" := "/usr/bin"]> ∅).

(** * Verification *)

(** ** Sample runs *)

Example set_command_port :
  set_command "PORT" "3001" =
    "railway variables --set " +:+ dquote +:+ "PORT=3001" +:+ dquote.
Proof. reflexivity. Qed.

(** Every subprocess exits cleanly and says "deployed". *)
Example run_all_clean :
  printed (history (snd (script os_deployed ∅))) =
    [ "🚂 Railway Auto-Deploy für Auto-Alert SaaS";
      "==================================================";
      nl +:+ "📊 1. Checking Railway Status...";
      "🔄 Executing: railway status";
      "✅ Success: deployed";
      nl +:+ "🔑 2. Setting Environment Variables...";
      "🔄 Executing: railway variables --set " +:+ dquote +:+
        "NODE_ENV=production" +:+ dquote;
      "✅ Success: deployed";
      "🔄 Executing: railway variables --set " +:+ dquote +:+
        "PORT=3001" +:+ dquote;
      "✅ Success: deployed";
      "🔄 Executing: railway variables --set " +:+ dquote +:+
        "WEBHOOK_SECRET=auto-alert-webhook-secret-2024" +:+ dquote;
      "✅ Success: deployed";
      nl +:+ "🚀 3. Starting Deployment...";
      "🔄 Executing: railway up --detach";
      "✅ Success: deployed";
      nl +:+ "✅ Deployment initiated successfully!";
      "🔍 Check status with: railway logs";
      "🌐 Open dashboard: https://railway.app/dashboard";
      nl +:+ "🎉 Railway Auto-Deploy Complete!" ].
Proof. vm_compute. reflexivity. Qed.

(** A failing status query, a timeout, an exception and a clean variable-set,
    then a deploy that exits with code 1. *)
Example run_mixed :
  let run :=
    script (replay [ exited 1 EmptyString "no project";
                     Raised TimeoutExpired;
                     Raised (Exception "[WinError 267]");
                     exited 0 "set" EmptyString;
                     exited 1 EmptyString "build failed" ]) ∅ in
  fst run = Returned tt ∧
  printed (history (snd run)) =
    [ "🚂 Railway Auto-Deploy für Auto-Alert SaaS";
      "==================================================";
      nl +:+ "📊 1. Checking Railway Status...";
      "🔄 Executing: railway status";
      "❌ Error: no project";
      nl +:+ "🔑 2. Setting Environment Variables...";
      "🔄 Executing: railway variables --set " +:+ dquote +:+
        "NODE_ENV=production" +:+ dquote;
      "⏰ Timeout after 10s";
      "🔄 Executing: railway variables --set " +:+ dquote +:+
        "PORT=3001" +:+ dquote;
      "💥 Exception: [WinError 267]";
      "🔄 Executing: railway variables --set " +:+ dquote +:+
        "WEBHOOK_SECRET=auto-alert-webhook-secret-2024" +:+ dquote;
      "✅ Success: set";
      nl +:+ "🚀 3. Starting Deployment...";
      "🔄 Executing: railway up --detach";
      "❌ Error: build failed";
      nl +:+ "❌ Deployment failed - check Railway CLI manually";
      nl +:+ "🎉 Railway Auto-Deploy Complete!" ].
Proof. vm_compute. split; reflexivity. Qed.

(** ** What one call of run_command does *)


Lemma run_command_run (os : OS) (cmd : string) (timeout : option Z)
    (p : Process) :
  run_command os cmd timeout p =
    (Returned (result_for (outcome_at os cmd timeout p)),
     {| environ := environ p;
        history := history p ++
          call_events cmd (default default_timeout timeout) (environ p)
            (outcome_at os cmd timeout p) |}).
Proof.
  unfold run_command, try_except, outcome_at, call_events.
  unfold mbind, script_bind, mret, script_ret, print, subprocess_run, record.
  cbn [history environ fst snd].
  destruct (os _ _) as [cp | [ | msg]]; cbn [line_for result_for].
  - destruct (returncode cp =? 0); cbn [history environ];
      rewrite <- !app_assoc; reflexivity.
  - cbn [history environ]; rewrite <- !app_assoc; reflexivity.
  - cbn [history environ]; rewrite <- !app_assoc; reflexivity.
Qed.

(** ** Runs that return *)

Lemma run_bind {A B} (m : Script A) (f : A → Script B) (p : Process) :
  (m ≫= f) p =
    match m p with
    | (Returned a, p') => f a p'
    | (Raised e, p') => (Raised e, p')
    end.
Proof. reflexivity. Qed.

Lemma bind_assoc {A B C} (m : Script A) (f : A → Script B)
    (k : B → Script C) (p : Process) :
  ((m ≫= f) ≫= k) p = (m ≫= λ a, f a ≫= k) p.
Proof. rewrite !run_bind. destruct (m p) as [[a | e] q]; reflexivity. Qed.

Lemma ret_bind {A B} (a : A) (f : A → Script B) (p : Process) :
  (mret a ≫= f) p = f a p.
Proof. reflexivity. Qed.

Lemma bind_cong {A B} (m m' : Script A) (f f' : A → Script B) (p : Process) :
  (∀ q, m q = m' q) → (∀ a q, f a q = f' a q) → (m ≫= f) p = (m' ≫= f') p.
Proof.
  intros Hm Hf. rewrite !run_bind, Hm.
  destruct (m' p) as [[a | e] q]; auto.
Qed.

Lemma returns_ret {A} (a : A) (p : Process) (Q : A → Process → Prop) :
  Q a p → returns (mret a) p Q.
Proof. intros HQ. exists a, p. split; [reflexivity | exact HQ]. Qed.

Lemma returns_bind {A B} (m : Script A) (f : A → Script B) (p : Process)
    (Q : B → Process → Prop) :
  returns m p (λ a p', returns (f a) p' Q) → returns (m ≫= f) p Q.
Proof.
  intros (a & p' & Hm & b & p'' & Hf & HQ).
  exists b, p''. split; [ | exact HQ].
  rewrite run_bind, Hm. exact Hf.
Qed.

Lemma returns_print (text : string) (p : Process) (Q : unit → Process → Prop) :
  Q tt {| environ := environ p; history := history p ++ [EvPrint text] |} →
  returns (print text) p Q.
Proof. intros HQ. eexists _, _. split; [reflexivity | exact HQ]. Qed.

Lemma returns_os_environ_set (key value : string) (p : Process)
    (Q : unit → Process → Prop) :
  Q tt {| environ := <[key := value]> (environ p);
          history := history p ++ [EvSetEnv key value] |} →
  returns (os_environ_set key value) p Q.
Proof. intros HQ. eexists _, _. split; [reflexivity | exact HQ]. Qed.

Lemma returns_time_sleep (seconds : Z) (p : Process)
    (Q : unit → Process → Prop) :
  Q tt {| environ := environ p; history := history p ++ [EvSleep seconds] |} →
  returns (time_sleep seconds) p Q.
Proof. intros HQ. eexists _, _. split; [reflexivity | exact HQ]. Qed.

Lemma returns_run_command (os : OS) (cmd : string) (timeout : option Z)
    (p : Process) (Q : option string → Process → Prop) :
  (∀ r : Completion CompletedProcess,
     r = outcome_at os cmd timeout p →
     Q (result_for r)
       {| environ := environ p;
          history := history p ++
            call_events cmd (default default_timeout timeout) (environ p) r |}) →
  returns (run_command os cmd timeout) p Q.
Proof.
  intros HQ. eexists _, _.
  split; [apply run_command_run | apply HQ; reflexivity].
Qed.

(** Follows the code along its binds, one primitive at a time; the outcome
    of each subprocess becomes a fresh name [r], and [tac r H] is run on the
    equation [H] that says where [r] comes from. *)
Ltac run_script_step tac :=
  lazymatch goal with
  | |- returns (_ ≫= _) _ _ => apply returns_bind
  | |- returns (mret _) _ _ => apply returns_ret
  | |- returns (print _) _ _ => apply returns_print
  | |- returns (os_environ_set _ _) _ _ => apply returns_os_environ_set
  | |- returns (time_sleep _) _ _ => apply returns_time_sleep
  | |- returns (run_command _ _ _) _ _ =>
      let r := fresh "r" in
      let H := fresh "H" r in
      apply returns_run_command; intros r H; tac r H
  | |- returns (if ?c then _ else _) _ _ => destruct c
  | |- returns (for_each _ _) _ _ => progress cbn [for_each env_vars]
  | |- returns (set_variable _ _) _ _ => progress cbn [set_variable]
  end;
  cbn [environ history default].

Ltac run_script := repeat run_script_step ltac:(fun r H => clear H).

(** ** What a run of main does *)

Lemma main_until_deploy_run (os : OS) (p : Process) :
  ∃ r1 r2 r3 r4 r5 : Completion CompletedProcess,
    emits (main_until_deploy (run_command os)) p (result_for r5)
      (<["RAILWAY_TOKEN" := railway_token]> (environ p))
      (events_until_deploy
         (<["RAILWAY_TOKEN" := railway_token]> (environ p)) r1 r2 r3 r4 r5).
Proof.
  cut (returns (main_until_deploy (run_command os)) p
         (λ a p', ∃ r1 r2 r3 r4 r5,
            (Returned a, p') =
              (Returned (result_for r5),
               {| environ := <["RAILWAY_TOKEN" := railway_token]> (environ p);
                  history := history p ++
                    events_until_deploy
                      (<["RAILWAY_TOKEN" := railway_token]> (environ p))
                      r1 r2 r3 r4 r5 |}))).
  { intros (a & p' & Hrun & r1 & r2 & r3 & r4 & r5 & Heq).
    exists r1, r2, r3, r4, r5. unfold emits. rewrite Hrun. exact Heq. }
  unfold main_until_deploy. run_script.
  exists r, r0, r1, r2, r3.
  unfold events_until_deploy, default_timeout.
  rewrite <- !app_assoc. reflexivity.
Qed.

Lemma main_report_run (deploy : option string) (p : Process) :
  emits (main_report deploy) p tt (environ p) (events_of_report deploy).
Proof.
  cut (returns (main_report deploy) p
         (λ a p', (Returned a, p') =
            (Returned tt,
             {| environ := environ p;
                history := history p ++ events_of_report deploy |}))).
  { intros (a & p' & Hrun & Heq). unfold emits. rewrite Hrun. exact Heq. }
  unfold main_report, events_of_report.
  destruct (truthy deploy); run_script; rewrite <- !app_assoc; reflexivity.
Qed.

Lemma main_run (os : OS) (p : Process) :
  ∃ r1 r2 r3 r4 r5 : Completion CompletedProcess,
    emits (main os) p tt
      (<["RAILWAY_TOKEN" := railway_token]> (environ p))
      (events_until_deploy
         (<["RAILWAY_TOKEN" := railway_token]> (environ p)) r1 r2 r3 r4 r5
       ++ events_of_report (result_for r5)).
Proof.
  destruct (main_until_deploy_run os p) as (r1 & r2 & r3 & r4 & r5 & Hrun).
  exists r1, r2, r3, r4, r5.
  unfold emits, main, main_body in *.
  rewrite run_bind, Hrun, main_report_run. cbn [history environ].
  rewrite <- app_assoc. reflexivity.
Qed.

(** ** run_command: results and failures *)

(** C1.  For every command and timeout, when the subprocess that
    [run_command] starts exits: with code 0, [run_command] returns its
    captured standard output; with another code, [run_command] returns
    [None] and the line it prints is the error line made of the captured
    standard error; and a present result is only ever the standard output of
    an exit with code 0. *)
Theorem run_command_exit_code (os : OS) (cmd : string) (timeout : option Z)
    (p : Process) (cp : CompletedProcess) :
  outcome_at os cmd timeout p = Returned cp →
  outcomes (history (snd (run_command os cmd timeout p))) =
    outcomes (history p) ++ [Returned cp] ∧
  (returncode cp = 0 →
     fst (run_command os cmd timeout p) = Returned (Some (stdout cp))) ∧
  (returncode cp ≠ 0 →
     fst (run_command os cmd timeout p) = Returned None ∧
     printed (history (snd (run_command os cmd timeout p))) =
       printed (history p) ++
       ["🔄 Executing: " +:+ cmd; "❌ Error: " +:+ stderr cp]) ∧
  (∀ out : string,
     fst (run_command os cmd timeout p) = Returned (Some out) →
     returncode cp = 0 ∧ out = stdout cp).
Proof.
  intros Hcp. rewrite run_command_run, Hcp.
  cbn [fst snd history].
  unfold outcomes, printed, call_events, line_for, result_for.
  rewrite !omap_app. split; [reflexivity | ].
  destruct (Z.eqb_spec (returncode cp) 0) as [Hz | Hnz].
  - split; [reflexivity | split].
    + intros Hne. contradiction.
    + intros out Hout. split; [exact Hz | congruence].
  - split; [intros Hz; contradiction | split].
    + intros _. split; reflexivity.
    + intros out Hout. discriminate.
Qed.

Lemma run_command_exit_code_witness :
  outcomes (history (snd (run_command os_exit_2 status_command None (start ∅)))) =
    outcomes (history (start ∅)) ++ [exited 2 "partial" "not logged in"] ∧
  (2 = 0 →
     fst (run_command os_exit_2 status_command None (start ∅)) =
       Returned (Some "partial")) ∧
  (2 ≠ 0 →
     fst (run_command os_exit_2 status_command None (start ∅)) = Returned None ∧
     printed (history (snd (run_command os_exit_2 status_command None (start ∅)))) =
       printed (history (start ∅)) ++
       ["🔄 Executing: " +:+ status_command; "❌ Error: " +:+ "not logged in"]) ∧
  (∀ out : string,
     fst (run_command os_exit_2 status_command None (start ∅)) =
       Returned (Some out) →
     2 = 0 ∧ out = "partial").
Proof.
  apply (run_command_exit_code os_exit_2 status_command None (start ∅)
           {| returncode := 2; stdout := "partial"; stderr := "not logged in" |}).
  reflexivity.
Defined.

(** ** The variable-set loop *)

Lemma actions_app (h1 h2 : list Event) :
  actions (h1 ++ h2) = actions h1 ++ actions h2.
Proof. apply omap_app. Qed.


(** The loop of lines 59-62 over any mapping: one command and one pause per
    entry, in the order of the entries.  By induction on the entries. *)
Lemma for_each_set_variable (os : OS) (entries : list (string * string)) :
  ∀ p : Process,
    ∃ evs : list Event,
      emits (for_each entries (set_variable (run_command os))) p tt
        (environ p) evs ∧
      actions evs =
        flat_map (λ entry, [Issue (set_command entry.1 entry.2) 10; Pause 1])
          entries.
Proof.
  induction entries as [ | [key value] entries IH]; intros p.
  - exists []. split; [ | reflexivity].
    unfold emits. cbn [for_each]. rewrite app_nil_r. destruct p; reflexivity.
  - cbn [for_each set_variable flat_map fst snd].
    pose (r := outcome_at os (set_command key value) (Some 10) p).
    pose (evs1 := call_events (set_command key value) 10 (environ p) r
                  ++ [EvSleep 1]).
    destruct (IH {| environ := environ p; history := history p ++ evs1 |})
      as (evs2 & Hrest & Hactions).
    exists (evs1 ++ evs2). split.
    + unfold emits in *. rewrite !run_bind, run_command_run.
      unfold time_sleep, record. cbn [history environ default] in *.
      fold r. subst evs1. rewrite <- !app_assoc in *. exact Hrest.
    + rewrite actions_app, Hactions. reflexivity.
Qed.

(** ** The whole run *)

Lemma script_run (os : OS) (env : gmap string string) :
  ∃ r1 r2 r3 r4 r5 : Completion CompletedProcess,
    script os env =
      (Returned tt,
       {| environ := <["RAILWAY_TOKEN" := railway_token]> env;
          history :=
            events_until_deploy (<["RAILWAY_TOKEN" := railway_token]> env)
              r1 r2 r3 r4 r5
            ++ events_of_report (result_for r5) |}).
Proof.
  destruct (main_run os (start env)) as (r1 & r2 & r3 & r4 & r5 & Hrun).
  exists r1, r2, r3, r4, r5. exact Hrun.
Qed.

(** The report only prints. *)
Lemma actions_events_of_report (deploy : option string) :
  actions (events_of_report deploy) = [].
Proof. unfold events_of_report. destruct (truthy deploy); reflexivity. Qed.

Lemma invocations_events_of_report (deploy : option string) :
  invocations (events_of_report deploy) = [].
Proof. unfold events_of_report. destruct (truthy deploy); reflexivity. Qed.

Lemma outcomes_events_of_report (deploy : option string) :
  outcomes (events_of_report deploy) = [].
Proof. unfold events_of_report. destruct (truthy deploy); reflexivity. Qed.

Lemma invocations_events_until_deploy (env : gmap string string)
    (r1 r2 r3 r4 r5 : Completion CompletedProcess) :
  invocations (events_until_deploy env r1 r2 r3 r4 r5) =
    [ invocation status_command 30 project_dir env;
      invocation (set_command "NODE_ENV" "production") 10 project_dir env;
      invocation (set_command "PORT" "3001") 10 project_dir env;
      invocation (set_command "WEBHOOK_SECRET" "auto-alert-webhook-secret-2024")
        10 project_dir env;
      invocation deploy_command 120 project_dir env ].
Proof. reflexivity. Qed.

Lemma script_invocations (os : OS) (env : gmap string string) :
  invocations (history (snd (script os env))) =
    (λ '(cmd, timeout),
       invocation cmd timeout project_dir
         (<["RAILWAY_TOKEN" := railway_token]> env))
    <$> [ (status_command, 30);
          (set_command "NODE_ENV" "production", 10);
          (set_command "PORT" "3001", 10);
          (set_command "WEBHOOK_SECRET" "auto-alert-webhook-secret-2024", 10);
          (deploy_command, 120) ].
Proof.
  destruct (script_run os env) as (r1 & r2 & r3 & r4 & r5 & Hrun).
  rewrite Hrun. cbn [snd history]. unfold invocations.
  rewrite omap_app. fold (invocations (events_of_report (result_for r5))).
  rewrite invocations_events_of_report, app_nil_r.
  apply invocations_events_until_deploy.
Qed.


(** C10.  The timeouts are fixed per kind of command.  A call that leaves
    the timeout out runs with 30 seconds; the subprocesses of a run carry 30
    (status), 10 (each variable-set command) and 120 (deploy); and [main]
    calls [run_command] with these arguments only: the status command
    without a timeout, each variable-set command with 10, the deploy command
    with 120. *)
Theorem command_timeouts :
  (∀ (os : OS) (cmd : string) (p : Process),
     run_command os cmd None p = run_command os cmd (Some 30) p) ∧
  (∀ (os : OS) (env : gmap string string),
     (λ i, (inv_cmd i, inv_timeout i)) <$>
       invocations (history (snd (script os env))) =
     [ (status_command, 30);
       (set_command "NODE_ENV" "production", 10);
       (set_command "PORT" "3001", 10);
       (set_command "WEBHOOK_SECRET" "auto-alert-webhook-secret-2024", 10);
       (deploy_command, 120) ]) ∧
  (∀ (callee callee' : string → option Z → Script (option string))
     (p : Process),
     (∀ q, callee status_command None q = callee' status_command None q) →
     (∀ key value q,
        (key, value) ∈ env_vars →
        callee (set_command key value) (Some 10) q =
        callee' (set_command key value) (Some 10) q) →
     (∀ q, callee deploy_command (Some 120) q =
           callee' deploy_command (Some 120) q) →
     main_body callee p = main_body callee' p).
Proof.
  split; [ | split].
  - reflexivity.
  - intros os env. rewrite script_invocations. reflexivity.
  - intros callee callee' p Hstatus Hset Hdeploy.
    unfold main_body, main_until_deploy.
    repeat first
      [ progress cbn [for_each env_vars set_variable]
      | apply bind_cong; [intros ? | intros ? ?]
      | apply Hstatus
      | apply Hdeploy
      | apply Hset; unfold env_vars; rewrite !elem_of_cons; tauto
      | reflexivity ].
Qed.

Lemma command_timeouts_witness :
  main_body (run_command os_deployed) (start ∅) =
  main_body (run_command_explicit os_deployed) (start ∅).
Proof.
  apply (proj2 (proj2 command_timeouts) (run_command os_deployed)
           (run_command_explicit os_deployed) (start ∅)).
  - intros q. reflexivity.
  - intros key value q Hin. reflexivity.
  - intros q. reflexivity.
Defined.

(** Every combination of outcomes of the five subprocesses is the run of
    some world: [replay] makes the five subprocesses end as prescribed. *)
Lemma script_replay (r1 r2 r3 r4 r5 : Completion CompletedProcess)
    (env : gmap string string) :
  outcomes (history (snd (script (replay [r1; r2; r3; r4; r5]) env))) =
    [r1; r2; r3; r4; r5].
Proof.
  cut (returns (main (replay [r1; r2; r3; r4; r5])) (start env)
         (λ _ p', outcomes (history p') = [r1; r2; r3; r4; r5])).
  { intros (a & p' & Hrun & Hout). unfold script. rewrite Hrun. exact Hout. }
  unfold main, main_body, main_until_deploy, main_report.
  repeat run_script_step
    ltac:(fun r H => unfold outcome_at, replay in H; cbn in H; subst r).
  all: reflexivity.
Qed.

(** ** The process environment *)

Lemma script_actions (os : OS) (env : gmap string string) :
  actions (history (snd (script os env))) =
    [ Assign "RAILWAY_TOKEN" railway_token;
      Issue status_command 30;
      Issue (set_command "NODE_ENV" "production") 10;
      Pause 1;
      Issue (set_command "PORT" "3001") 10;
      Pause 1;
      Issue (set_command "WEBHOOK_SECRET" "auto-alert-webhook-secret-2024") 10;
      Pause 1;
      Issue deploy_command 120 ].
Proof.
  destruct (script_run os env) as (r1 & r2 & r3 & r4 & r5 & Hrun).
  rewrite Hrun. cbn [snd history].
  rewrite actions_app, actions_events_of_report, app_nil_r.
  reflexivity.
Qed.

(** C3.  In every run of the script, what happens between the status query
    and the deploy command is the loop over the fixed mapping and nothing
    else: one set command per entry, in the order NODE_ENV, PORT,
    WEBHOOK_SECRET, each with the entry written KEY=VALUE between quotes
    after [railway variables --set] and run with timeout 10, and a pause of
    one second after each of them. *)
Theorem variable_set_loop (os : OS) (env : gmap string string) :
  actions (history (snd (script os env))) =
    [ Assign "RAILWAY_TOKEN" railway_token; Issue "railway status" 30 ]
    ++ flat_map (λ entry, [Issue (set_command entry.1 entry.2) 10; Pause 1])
         env_vars
    ++ [ Issue "railway up --detach" 120 ] ∧
  flat_map (λ entry, [Issue (set_command entry.1 entry.2) 10; Pause 1])
    env_vars =
    [ Issue ("railway variables --set " +:+ dquote +:+
             "NODE_ENV=production" +:+ dquote) 10;
      Pause 1;
      Issue ("railway variables --set " +:+ dquote +:+
             "PORT=3001" +:+ dquote) 10;
      Pause 1;
      Issue ("railway variables --set " +:+ dquote +:+
             "WEBHOOK_SECRET=auto-alert-webhook-secret-2024" +:+ dquote) 10;
      Pause 1 ].
Proof.
  split; [ | reflexivity].
  rewrite script_actions. reflexivity.
Qed.

(** C7.  The script assigns the process environment once, RAILWAY_TOKEN, and
    does so before it starts any subprocess; nothing assigns it afterwards,
    so each of the five subprocesses inherits the same environment, the
    initial one with the token set, and that is also the environment the
    script ends with. *)
Theorem environment_assigned_once (os : OS) (env : gmap string string) :
  let h := history (snd (script os env)) in
  let token_env := <["RAILWAY_TOKEN" := railway_token]> env in
  (∃ rest : list Action,
     actions h = Assign "RAILWAY_TOKEN" railway_token :: rest ∧
     Forall (λ a, ∀ key value, a ≠ Assign key value) rest) ∧
  length (invocations h) = 5%nat ∧
  Forall (λ i, inv_env i = token_env ∧
               inv_env i !! "RAILWAY_TOKEN" = Some railway_token)
    (invocations h) ∧
  environ (snd (script os env)) = token_env.
Proof.
  intros h token_env. subst h.
  split; [ | split; [ | split]].
  - rewrite script_actions. eexists. split; [reflexivity | ].
    repeat constructor; discriminate.
  - rewrite script_invocations. reflexivity.
  - rewrite script_invocations.
    repeat constructor; apply lookup_insert_eq.
  - destruct (script_run os env) as (r1 & r2 & r3 & r4 & r5 & Hrun).
    rewrite Hrun. reflexivity.
Qed.

(** ** The final message *)

Lemma events_of_report_lines (deploy : option string) :
  events_of_report deploy = EvPrint <$> report_lines deploy.
Proof.
  unfold events_of_report, report_lines. destruct (truthy deploy); reflexivity.
Qed.

Lemma report_lines_exclusive (deploy : option string) :
  success_message ∈ report_lines deploy ↔
  failure_message ∉ report_lines deploy.
Proof.
  unfold report_lines. destruct (truthy deploy); cbn [app].
  - split; [intros _ | intros _; apply list_elem_of_here].
    intros Hin. rewrite !elem_of_cons, elem_of_nil in Hin.
    vm_compute in Hin.
    destruct Hin as [H | [H | [H | [H | []]]]]; discriminate H.
  - split; [ | intros Hnot; destruct Hnot; apply list_elem_of_here].
    intros Hin. rewrite !elem_of_cons, elem_of_nil in Hin.
    vm_compute in Hin.
    destruct Hin as [H | [H | []]]; discriminate H.
Qed.

(** The lines of the report, by the result it is given. *)
Lemma report_lines_cases (deploy : option string) :
  (∀ out : string, deploy = Some out → out ≠ EmptyString →
     report_lines deploy =
       [ success_message;
         "🔍 Check status with: railway logs";
         "🌐 Open dashboard: https://railway.app/dashboard";
         nl +:+ "🎉 Railway Auto-Deploy Complete!" ]) ∧
  (deploy = None →
     report_lines deploy =
       [ failure_message; nl +:+ "🎉 Railway Auto-Deploy Complete!" ]).
Proof.
  split.
  - intros out -> Hne. destruct out as [ | a out]; [contradiction | ].
    reflexivity.
  - intros ->. reflexivity.
Qed.

(** A run of [main] comes to the deploy call, in some state [q]; what that
    call returns is handed to the report, and the report is the rest of
    the run. *)
Lemma main_ends_with_deploy_and_report (os : OS) (p : Process) :
  ∃ (q q1 : Process) (deploy : option string),
    run_command os deploy_command (Some 120) q = (Returned deploy, q1) ∧
    main os p =
      (Returned tt,
       {| environ := environ q1;
          history := history q1 ++ (EvPrint <$> report_lines deploy) |}).
Proof.
  cut (returns (main os) p
         (λ _ p', ∃ (q q1 : Process) (deploy : option string),
            run_command os deploy_command (Some 120) q = (Returned deploy, q1) ∧
            p' = {| environ := environ q1;
                    history := history q1 ++ (EvPrint <$> report_lines deploy) |})).
  { intros ([] & p' & Hrun & q & q1 & deploy & Hq & ->).
    exists q, q1, deploy. split; [exact Hq | exact Hrun]. }
  unfold main, main_body, main_until_deploy.
  repeat lazymatch goal with
         | |- returns (run_command _ deploy_command _) _ _ => fail
         | |- _ => run_script_step ltac:(fun r H => clear H)
         end.
  lazymatch goal with
  | |- returns (run_command os deploy_command (Some 120)) ?q _ =>
      pose proof (run_command_run os deploy_command (Some 120) q) as Hdeploy;
      cbn [environ history default] in Hdeploy;
      eexists _, _; split; [exact Hdeploy | ];
      generalize dependent (outcome_at os deploy_command (Some 120) q)
  end.
  intros rd Hdeploy.
  lazymatch goal with
  | |- returns (main_report ?d) ?q1 _ =>
      pose proof (main_report_run d q1) as Hreport
  end.
  unfold emits in Hreport. cbn [environ history] in Hreport.
  eexists _, _. split; [exact Hreport | ].
  eexists _, _, _. split; [exact Hdeploy | ].
  cbn [environ history]. rewrite events_of_report_lines. reflexivity.
Qed.

(** C4.  Every run of [main] comes to the call [run_command] of
    [railway up --detach] with timeout 120, and after that call it only
    prints.  When that call returned a non-empty text, the lines are the
    success message, its two hints and the closing line; when it returned
    [None], they are the failure message and the closing line.  The success
    message is printed exactly when the failure message is not, and each
    case is the run of some world. *)
Theorem deploy_result_selects_message :
  (∀ (os : OS) (p : Process),
     ∃ (q q1 : Process) (deploy : option string) (lines : list string),
       run_command os deploy_command (Some 120) q = (Returned deploy, q1) ∧
       main os p =
         (Returned tt,
          {| environ := environ q1;
             history := history q1 ++ (EvPrint <$> lines) |}) ∧
       (∀ out : string, deploy = Some out → out ≠ EmptyString →
          lines = [ success_message;
                    "🔍 Check status with: railway logs";
                    "🌐 Open dashboard: https://railway.app/dashboard";
                    nl +:+ "🎉 Railway Auto-Deploy Complete!" ]) ∧
       (deploy = None →
          lines = [ failure_message;
                    nl +:+ "🎉 Railway Auto-Deploy Complete!" ]) ∧
       (success_message ∈ lines ↔ failure_message ∉ lines)) ∧
  (∃ (os : OS) (q q1 : Process) (out : string),
     out ≠ EmptyString ∧
     run_command os deploy_command (Some 120) q = (Returned (Some out), q1) ∧
     script os ∅ =
       (Returned tt,
        {| environ := environ q1;
           history :=
             history q1 ++
             (EvPrint <$>
                [ success_message;
                  "🔍 Check status with: railway logs";
                  "🌐 Open dashboard: https://railway.app/dashboard";
                  nl +:+ "🎉 Railway Auto-Deploy Complete!" ]) |})) ∧
  (∃ (os : OS) (q q1 : Process),
     run_command os deploy_command (Some 120) q = (Returned None, q1) ∧
     script os ∅ =
       (Returned tt,
        {| environ := environ q1;
           history :=
             history q1 ++
             (EvPrint <$>
                [ failure_message;
                  nl +:+ "🎉 Railway Auto-Deploy Complete!" ]) |})).
Proof.
  assert (Hall : ∀ (os : OS) (p : Process),
            ∃ (q q1 : Process) (deploy : option string) (lines : list string),
              run_command os deploy_command (Some 120) q = (Returned deploy, q1) ∧
              main os p =
                (Returned tt,
                 {| environ := environ q1;
                    history := history q1 ++ (EvPrint <$> lines) |}) ∧
              lines = report_lines deploy).
  { intros os p.
    destruct (main_ends_with_deploy_and_report os p)
      as (q & q1 & deploy & Hq & Hmain).
    exists q, q1, deploy, (report_lines deploy). auto. }
  split; [ | split].
  - intros os p.
    destruct (Hall os p) as (q & q1 & deploy & lines & Hq & Hmain & ->).
    exists q, q1, deploy, (report_lines deploy).
    split; [exact Hq | ]. split; [exact Hmain | ].
    split; [apply report_lines_cases | ].
    split; [apply report_lines_cases | apply report_lines_exclusive].
  - destruct (Hall os_deployed (start ∅))
      as (q & q1 & deploy & lines & Hq & Hmain & ->).
    assert (Hdeploy : deploy = Some "deployed").
    { rewrite run_command_run in Hq. injection Hq as <- _. reflexivity. }
    subst deploy.
    exists os_deployed, q, q1, "deployed".
    split; [discriminate | ]. split; [exact Hq | exact Hmain].
  - destruct (Hall os_timeout (start ∅))
      as (q & q1 & deploy & lines & Hq & Hmain & ->).
    assert (Hdeploy : deploy = None).
    { rewrite run_command_run in Hq. injection Hq as <- _. reflexivity. }
    subst deploy.
    exists os_timeout, q, q1. split; [exact Hq | exact Hmain].
Qed.

Lemma deploy_result_selects_message_witness :
  ∃ (q q1 : Process) (deploy : option string) (lines : list string),
    run_command os_timeout deploy_command (Some 120) q = (Returned deploy, q1) ∧
    main os_timeout (start ∅) =
      (Returned tt,
       {| environ := environ q1;
          history := history q1 ++ (EvPrint <$> lines) |}) ∧
    (∀ out : string, deploy = Some out → out ≠ EmptyString →
       lines = [ success_message;
                 "🔍 Check status with: railway logs";
                 "🌐 Open dashboard: https://railway.app/dashboard";
                 nl +:+ "🎉 Railway Auto-Deploy Complete!" ]) ∧
    (deploy = None →
       lines = [ failure_message;
                 nl +:+ "🎉 Railway Auto-Deploy Complete!" ]) ∧
    (success_message ∈ lines ↔ failure_message ∉ lines).
Proof.
  exact (proj1 deploy_result_selects_message os_timeout (start ∅)).
Defined.

(** ** Which runs print the success message *)

Lemma line_for_no_newline (timeout : Z) (r : Completion CompletedProcess) :
  starts_with_newline (line_for timeout r) = false.
Proof.
  destruct r as [cp | [ | msg]]; cbn [line_for]; [ | reflexivity..].
  destruct (returncode cp =? 0); reflexivity.
Qed.

Lemma printed_events_until_deploy (env : gmap string string)
    (r1 r2 r3 r4 r5 : Completion CompletedProcess) :
  printed (events_until_deploy env r1 r2 r3 r4 r5) =
    [ "🚂 Railway Auto-Deploy für Auto-Alert SaaS";
      str_mul "=" 50;
      nl +:+ "📊 1. Checking Railway Status...";
      "🔄 Executing: " +:+ status_command;
      line_for 30 r1;
      nl +:+ "🔑 2. Setting Environment Variables...";
      "🔄 Executing: " +:+ set_command "NODE_ENV" "production";
      line_for 10 r2;
      "🔄 Executing: " +:+ set_command "PORT" "3001";
      line_for 10 r3;
      "🔄 Executing: " +:+
        set_command "WEBHOOK_SECRET" "auto-alert-webhook-secret-2024";
      line_for 10 r4;
      nl +:+ "🚀 3. Starting Deployment...";
      "🔄 Executing: " +:+ deploy_command;
      line_for 120 r5 ].
Proof. reflexivity. Qed.

(** A final message is none of the lines printed up to the deploy call: the
    lines of [run_command] do not start with a newline, the others are fixed
    texts. *)
Ltac not_this_line H :=
  first
    [ apply (f_equal starts_with_newline) in H;
      rewrite line_for_no_newline in H; discriminate H
    | vm_compute in H; discriminate H ].

Lemma final_message_not_before_deploy (env : gmap string string)
    (r1 r2 r3 r4 r5 : Completion CompletedProcess) (message : string) :
  message = success_message ∨ message = failure_message →
  message ∉ printed (events_until_deploy env r1 r2 r3 r4 r5).
Proof.
  rewrite printed_events_until_deploy.
  intros Hmessage Hin.
  rewrite !elem_of_cons, elem_of_nil in Hin.
  destruct Hmessage as [-> | ->];
    repeat (destruct Hin as [H | Hin]; [symmetry in H; not_this_line H | ]);
    exact Hin.
Qed.

Lemma report_lines_success (deploy : option string) :
  success_message ∈ report_lines deploy ↔ truthy deploy = true.
Proof.
  unfold report_lines. destruct (truthy deploy); cbn [app].
  - split; [reflexivity | intros _; apply list_elem_of_here].
  - split; [ | discriminate].
    intros Hin. rewrite !elem_of_cons, elem_of_nil in Hin.
    vm_compute in Hin.
    destruct Hin as [H | [H | []]]; discriminate H.
Qed.

Lemma report_lines_failure (deploy : option string) :
  failure_message ∈ report_lines deploy ↔ truthy deploy = false.
Proof.
  unfold report_lines. destruct (truthy deploy); cbn [app].
  - split; [ | discriminate].
    intros Hin. rewrite !elem_of_cons, elem_of_nil in Hin.
    vm_compute in Hin.
    destruct Hin as [H | [H | [H | [H | []]]]]; discriminate H.
  - split; [reflexivity | intros _; apply list_elem_of_here].
Qed.

Lemma truthy_result_for (r : Completion CompletedProcess) :
  truthy (result_for r) = true ↔ clean_nonempty r.
Proof.
  unfold clean_nonempty. destruct r as [cp | e]; cbn [result_for].
  - destruct (Z.eqb_spec (returncode cp) 0) as [Hz | Hnz].
    + destruct (stdout cp) as [ | a out] eqn:Hout; cbn [truthy].
      * split; [discriminate | ].
        intros (cp' & [= <-] & _ & Hne). congruence.
      * split; [ | reflexivity]. intros _. exists cp.
        rewrite Hout. repeat split; [exact Hz | discriminate].
    + cbn [truthy]. split; [discriminate | ].
      intros (cp' & [= <-] & Hz & _). contradiction.
  - cbn [truthy]. split; [discriminate | ].
    intros (cp' & Hr & _). discriminate Hr.
Qed.

Lemma script_printed (os : OS) (env : gmap string string) :
  ∃ r1 r2 r3 r4 r5 : Completion CompletedProcess,
    let token_env := <["RAILWAY_TOKEN" := railway_token]> env in
    printed (history (snd (script os env))) =
      printed (events_until_deploy token_env r1 r2 r3 r4 r5)
      ++ report_lines (result_for r5) ∧
    zip (commands (history (snd (script os env))))
        (outcomes (history (snd (script os env)))) =
      [ (status_command, r1);
        (set_command "NODE_ENV" "production", r2);
        (set_command "PORT" "3001", r3);
        (set_command "WEBHOOK_SECRET" "auto-alert-webhook-secret-2024", r4);
        (deploy_command, r5) ].
Proof.
  destruct (script_run os env) as (r1 & r2 & r3 & r4 & r5 & Hrun).
  exists r1, r2, r3, r4, r5. intros token_env.
  rewrite Hrun. cbn [snd history]. split.
  - unfold printed. rewrite omap_app, events_of_report_lines. f_equal.
    generalize (report_lines (result_for r5)) as lines.
    induction lines as [ | line lines IH]; [reflexivity | ].
    cbn. f_equal. exact IH.
  - unfold commands, invocations, outcomes. rewrite !omap_app.
    fold (invocations (events_of_report (result_for r5))).
    fold (outcomes (events_of_report (result_for r5))).
    rewrite invocations_events_of_report, outcomes_events_of_report.
    reflexivity.
Qed.

(** C9.  An exit with code 0 and empty standard output makes [run_command]
    return a present result, the empty text; [main] takes that for a failure.
    So in every run the success message is printed exactly when the deploy
    subprocess (the last one) exits with code 0 and a non-empty standard
    output, and the failure message is printed in every other run. *)
Theorem success_needs_nonempty_stdout :
  (∀ (os : OS) (cmd : string) (timeout : option Z) (p : Process)
     (err : string),
     outcome_at os cmd timeout p = exited 0 EmptyString err →
     fst (run_command os cmd timeout p) = Returned (Some EmptyString)) ∧
  (∀ (os : OS) (env : gmap string string),
     let h := history (snd (script os env)) in
     ∃ r : Completion CompletedProcess,
       last (zip (commands h) (outcomes h)) = Some (deploy_command, r) ∧
       (success_message ∈ printed h ↔
          ∃ cp : CompletedProcess,
            r = Returned cp ∧ returncode cp = 0 ∧ stdout cp ≠ EmptyString) ∧
       (failure_message ∈ printed h ↔
          ¬ ∃ cp : CompletedProcess,
              r = Returned cp ∧ returncode cp = 0 ∧ stdout cp ≠ EmptyString) ∧
       (∀ err : string,
          r = exited 0 EmptyString err →
          failure_message ∈ printed h ∧ success_message ∉ printed h)).
Proof.
  split.
  - intros os cmd timeout p err Hr.
    rewrite run_command_run, Hr. reflexivity.
  - intros os env h. subst h.
    destruct (script_printed os env) as (r1 & r2 & r3 & r4 & r5 & Hp & Hz).
    cbn zeta in Hp. rewrite Hp, Hz. clear Hp Hz.
    pose proof (final_message_not_before_deploy
                  (<["RAILWAY_TOKEN" := railway_token]> env) r1 r2 r3 r4 r5)
      as Hbefore.
    assert (Hs : success_message ∈
                   printed (events_until_deploy
                              (<["RAILWAY_TOKEN" := railway_token]> env)
                              r1 r2 r3 r4 r5)
                   ++ report_lines (result_for r5) ↔ clean_nonempty r5).
    { rewrite elem_of_app, report_lines_success, truthy_result_for.
      split; [intros [Hin | Hc]; [ | exact Hc] | intros Hc; right; exact Hc].
      exfalso. apply (Hbefore success_message); [left; reflexivity | exact Hin]. }
    assert (Hf : failure_message ∈
                   printed (events_until_deploy
                              (<["RAILWAY_TOKEN" := railway_token]> env)
                              r1 r2 r3 r4 r5)
                   ++ report_lines (result_for r5) ↔ ¬ clean_nonempty r5).
    { rewrite elem_of_app, report_lines_failure, <- truthy_result_for.
      rewrite not_true_iff_false.
      split; [intros [Hin | Hc]; [ | exact Hc] | intros Hc; right; exact Hc].
      exfalso. apply (Hbefore failure_message); [right; reflexivity | exact Hin]. }
    exists r5. split; [reflexivity | ]. split; [exact Hs | ].
    split; [exact Hf | ].
    intros err ->.
    assert (Hnot : ¬ clean_nonempty (exited 0 EmptyString err)).
    { intros (cp & [= <-] & _ & Hne). apply Hne. reflexivity. }
    split; [apply Hf; exact Hnot | ].
    intros Hin. apply Hnot, Hs. exact Hin.
Qed.

Lemma success_needs_nonempty_stdout_witness :
  fst (run_command os_silent deploy_command (Some 120) (start ∅)) =
    Returned (Some EmptyString).
Proof.
  apply (proj1 success_needs_nonempty_stdout os_silent deploy_command
           (Some 120) (start ∅) EmptyString).
  reflexivity.
Defined.

(** ** What main makes of the results *)

Lemma main_report_truthy (deploy deploy' : option string) (p : Process) :
  truthy deploy' = truthy deploy → main_report deploy' p = main_report deploy p.
Proof. unfold main_report. intros ->. reflexivity. Qed.

(** C8, as stated, fails: handing [main] an absence where the deploy call
    returned a text changes what [main] does (it prints the failure message
    instead of the three success lines). *)
Lemma main_branches_on_deploy_result :
  ¬ (∀ (callee : string → option Z → Script (option string))
       (g : string → option string → option string) (p : Process),
       main_body (relabel g callee) p = main_body callee p).
Proof.
  intros Hsame.
  specialize (Hsame (run_command os_deployed) (λ _ _, None) (start ∅)).
  apply (f_equal (λ run, length (printed (history (snd run))))) in Hsame.
  vm_compute in Hsame. discriminate Hsame.
Qed.

(** C8, amended.  [main] looks at one thing only in what [run_command] hands
    back: whether the result of the deploy call is true (a non-empty text).
    The results of the status query and of the variable-set commands may be
    replaced by anything, and the deploy result by anything of the same
    truth value, and [main] does the same. *)
Theorem main_uses_only_deploy_truth
    (callee : string → option Z → Script (option string))
    (g : string → option string → option string) (p : Process) :
  (∀ x : option string, truthy (g deploy_command x) = truthy x) →
  main_body (relabel g callee) p = main_body callee p.
Proof.
  intros Hg. unfold main_body, main_until_deploy, relabel.
  repeat first
    [ rewrite !bind_assoc
    | rewrite ret_bind
    | apply bind_cong; [intros ?; reflexivity | intros ? ?]
    | progress cbn [for_each env_vars set_variable]
    | apply main_report_truthy, Hg
    | reflexivity ].
Qed.

Lemma main_uses_only_deploy_truth_witness :
  main_body (relabel keep_deploy_only (run_command os_deployed)) (start ∅) =
  main_body (run_command os_deployed) (start ∅).
Proof.
  apply (main_uses_only_deploy_truth (run_command os_deployed)
           keep_deploy_only (start ∅)).
  intros x. reflexivity.
Defined.

(** * Further properties of the code *)

(** ** run_command: one subprocess, two lines *)


(** X2.  The stream that a call does not report is dropped.  After an exit
    with code 0 the captured standard error is neither printed nor returned,
    and after any other exit code the captured standard output is neither
    printed nor returned: two subprocesses that exit with the same code and
    agree on the reported stream give the same result and the same lines. *)
Theorem run_command_drops_other_stream (os1 os2 : OS) (cmd : string)
    (timeout : option Z) (p : Process) (rc : Z) (out1 err1 out2 err2 : string) :
  outcome_at os1 cmd timeout p = exited rc out1 err1 →
  outcome_at os2 cmd timeout p = exited rc out2 err2 →
  (if rc =? 0 then out1 = out2 else err1 = err2) →
  fst (run_command os1 cmd timeout p) = fst (run_command os2 cmd timeout p) ∧
  printed (history (snd (run_command os1 cmd timeout p))) =
  printed (history (snd (run_command os2 cmd timeout p))).
Proof.
  intros H1 H2 Hsame. rewrite !run_command_run, H1, H2.
  cbn [fst snd history]. unfold printed, exited, call_events, line_for, result_for.
  rewrite !omap_app. cbn [returncode stdout stderr].
  destruct (rc =? 0); subst; split; reflexivity.
Qed.

Lemma run_command_drops_other_stream_witness :
  fst (run_command os_deployed status_command None (start ∅)) =
  fst (run_command os_deployed_warning status_command None (start ∅)) ∧
  printed (history (snd (run_command os_deployed status_command None (start ∅)))) =
  printed (history (snd (run_command os_deployed_warning status_command None
                           (start ∅)))).
Proof.
  apply (run_command_drops_other_stream os_deployed os_deployed_warning
           status_command None (start ∅) 0
           "deployed" EmptyString "deployed" "warning: update available").
  - reflexivity.
  - reflexivity.
  - reflexivity.
Defined.

(** ** main: the environment it passes on *)

(** X3.  A token that is already in the environment is overwritten by the
    fixed one, and every other variable is left alone: each of the five
    subprocesses inherits it as it was when the script started, and so does
    whatever runs after the script in the same process. *)
Theorem other_variables_inherited (os : OS) (env : gmap string string) :
  let run := script os env in
  environ (snd run) !! "RAILWAY_TOKEN" = Some railway_token ∧
  ∀ key : string,
    key ≠ "RAILWAY_TOKEN" →
    environ (snd run) !! key = env !! key ∧
    Forall (λ i, inv_env i !! key = env !! key)
      (invocations (history (snd run))).
Proof.
  intros run. subst run.
  destruct (script_run os env) as (r1 & r2 & r3 & r4 & r5 & Hrun).
  split.
  - rewrite Hrun. cbn [snd environ]. apply lookup_insert_eq.
  - intros key Hkey. split.
    + rewrite Hrun. cbn [snd environ]. apply lookup_insert_ne. congruence.
    + rewrite script_invocations.
      repeat constructor; cbn [inv_env invocation];
        apply lookup_insert_ne; congruence.
Qed.

Lemma other_variables_inherited_witness :
  environ (snd (script os_deployed env_with_token)) !! "PATH" =
    env_with_token !! "PATH" ∧
  Forall (λ i, inv_env i !! "PATH" = env_with_token !! "PATH")
    (invocations (history (snd (script os_deployed env_with_token)))).
Proof.
  apply (proj2 (other_variables_inherited os_deployed env_with_token) "PATH").
  discriminate.
Defined.

(** ** main: what the log looks like *)




(** ** The loop over any mapping *)



(** * The script in a world that can refuse and interrupt: verification *)

(** ** What one call of run_command does *)

Lemma full_run_bind {A B} (m : Full.Script A) (f : A → Full.Script B)
    (p : Full.Process) :
  (m ≫= f) p =
    match m p with
    | (Full.Returned a, p') => f a p'
    | (Full.Raised e, p') => (Full.Raised e, p')
    end.
Proof. reflexivity. Qed.

Lemma full_print_accepted (w : Full.World) (text : string) (p : Full.Process) :
  Full.console_accepts w →
  Full.print w text p =
    (Full.Returned tt,
     {| Full.environ := Full.environ p;
        Full.history := Full.history p ++ [Full.EvPrint text] |}).
Proof. intros Hconsole. unfold Full.print. rewrite Hconsole. reflexivity. Qed.

(** The outcome the world gives to a call of [run_command] made in [p],
    when the line that announces it was printed. *)
Lemma full_run_command_run (w : Full.World) (cmd : string)
    (timeout : option Z) (p : Full.Process) :
  Full.console_accepts w →
  ∃ r : Full.Completion CompletedProcess,
    r = Full.subprocess_outcome w
          (Full.history p ++ [Full.EvPrint ("🔄 Executing: " +:+ cmd)])
          (invocation cmd (default default_timeout timeout) project_dir
             (Full.environ p)) ∧
    Full.run_command w cmd timeout p =
      match Full.escaping r with
      | Some e =>
          (Full.Raised e,
           {| Full.environ := Full.environ p;
              Full.history :=
                Full.history p ++
                [ Full.EvPrint ("🔄 Executing: " +:+ cmd);
                  Full.EvSubprocess
                    (invocation cmd (default default_timeout timeout)
                       project_dir (Full.environ p)) r ] |})
      | None =>
          (Full.Returned (Full.result_for r),
           {| Full.environ := Full.environ p;
              Full.history :=
                Full.history p ++
                [ Full.EvPrint ("🔄 Executing: " +:+ cmd);
                  Full.EvSubprocess
                    (invocation cmd (default default_timeout timeout)
                       project_dir (Full.environ p)) r;
                  Full.EvPrint
                    (Full.line_for (default default_timeout timeout) r) ] |})
      end.
Proof.
  intros Hconsole. eexists. split; [reflexivity | ].
  unfold Full.run_command, Full.try_except.
  rewrite full_run_bind, full_print_accepted by exact Hconsole.
  cbv beta iota. rewrite full_run_bind.
  unfold Full.subprocess_run, Full.record.
  cbv beta iota zeta. cbn [Full.history Full.environ].
  destruct (Full.subprocess_outcome w _ _) as [cp | [ | msg | | code]];
    cbn [Full.escaping Full.is_Exception Full.result_for Full.line_for].
  - destruct (returncode cp =? 0);
      rewrite full_run_bind, full_print_accepted by exact Hconsole;
      cbv beta iota; cbn [Full.history Full.environ];
      rewrite <- !app_assoc; reflexivity.
  - rewrite full_run_bind, full_print_accepted by exact Hconsole.
    cbv beta iota. cbn [Full.history Full.environ].
    rewrite <- !app_assoc. reflexivity.
  - rewrite full_run_bind, full_print_accepted by exact Hconsole.
    cbv beta iota. cbn [Full.history Full.environ].
    rewrite <- !app_assoc. reflexivity.
  - rewrite <- !app_assoc. reflexivity.
  - rewrite <- !app_assoc. reflexivity.
Qed.

(** ** run_command: what it catches and what it lets through *)

(** C2, as stated, fails: [except Exception] does not catch an exception that
    is not an instance of [Exception].  When the deploy subprocess is
    interrupted from the keyboard, [run_command] raises [KeyboardInterrupt]
    to its caller. *)
Lemma run_command_lets_interrupt_through :
  ¬ (∀ (w : Full.World) (cmd : string) (timeout : option Z)
       (p : Full.Process),
       ∃ v : option string,
         fst (Full.run_command w cmd timeout p) = Full.Returned v).
Proof.
  intros Hnever.
  destruct (Hnever Full.w_interrupted deploy_command (Some 120)
              (Full.start ∅)) as [v Hv].
  vm_compute in Hv. discriminate Hv.
Qed.

(** The handlers print, too: on a console that cannot encode the texts, the
    line that announces the command raises, [except Exception] catches that,
    and the line of the handler raises again, past [run_command]. *)
Lemma run_command_handler_print_raises :
  Full.run_command Full.w_ascii_console status_command None (Full.start ∅) =
    (Full.Raised (Full.Exception "'ascii' codec can't encode character"),
     Full.start ∅).
Proof. vm_compute. reflexivity. Qed.

(** C2, amended.  With a console that accepts what is printed,
    [run_command] returns to its caller whenever the subprocess call raises
    nothing but instances of [Exception]: after a timeout it returns [None]
    and has printed the timeout line, after any other [Exception] it returns
    [None] and has printed the exception line.  An exception that is not an
    instance of [Exception] is not caught: [run_command] raises it. *)
Theorem run_command_catches_Exceptions (w : Full.World) (cmd : string)
    (timeout : option Z) (p : Full.Process) :
  Full.console_accepts w →
  let r :=
    Full.subprocess_outcome w
      (Full.history p ++ [Full.EvPrint ("🔄 Executing: " +:+ cmd)])
      (invocation cmd (default 30 timeout) project_dir (Full.environ p)) in
  let run := Full.run_command w cmd timeout p in
  ((∀ e, r = Full.Raised e → Full.is_Exception e = true) →
     ∃ v : option string, fst run = Full.Returned v) ∧
  (r = Full.Raised Full.TimeoutExpired →
     fst run = Full.Returned None ∧
     Full.printed (Full.history (snd run)) =
       Full.printed (Full.history p) ++
       [ "🔄 Executing: " +:+ cmd;
         "⏰ Timeout after " +:+ pretty (default 30 timeout) +:+ "s" ]) ∧
  (∀ msg : string,
     r = Full.Raised (Full.Exception msg) →
     fst run = Full.Returned None ∧
     Full.printed (Full.history (snd run)) =
       Full.printed (Full.history p) ++
       [ "🔄 Executing: " +:+ cmd; "💥 Exception: " +:+ msg ]) ∧
  (∀ e : Full.PyBaseException,
     r = Full.Raised e → Full.is_Exception e = false →
     fst run = Full.Raised e).
Proof.
  intros Hconsole r run. subst run r.
  destruct (full_run_command_run w cmd timeout p Hconsole) as (r & Hr & Hrun).
  rewrite Hrun. clear Hrun. unfold default_timeout in Hr.
  rewrite <- !Hr. clear Hr.
  split; [ | split; [ | split]].
  - intros Honly. destruct r as [cp | e]; cbn [Full.escaping].
    + eexists. reflexivity.
    + rewrite (Honly e eq_refl). eexists. reflexivity.
  - intros ->. cbn [Full.escaping Full.is_Exception fst snd Full.history].
    unfold Full.printed. rewrite omap_app. split; reflexivity.
  - intros msg ->. cbn [Full.escaping Full.is_Exception fst snd Full.history].
    unfold Full.printed. rewrite omap_app. split; reflexivity.
  - intros e -> He. cbn [Full.escaping]. rewrite He. reflexivity.
Qed.

Lemma run_command_catches_Exceptions_witness :
  fst (Full.run_command Full.w_timeout deploy_command (Some 120)
         (Full.start ∅)) = Full.Returned None ∧
  Full.printed
    (Full.history
       (snd (Full.run_command Full.w_timeout deploy_command (Some 120)
               (Full.start ∅)))) =
    Full.printed (Full.history (Full.start ∅)) ++
    [ "🔄 Executing: " +:+ deploy_command;
      "⏰ Timeout after " +:+ pretty (default 30 (Some 120)) +:+ "s" ].
Proof.
  apply (proj1 (proj2 (run_command_catches_Exceptions Full.w_timeout
                         deploy_command (Some 120) (Full.start ∅)
                         (λ h text, eq_refl)))).
  reflexivity.
Defined.

(** ** Runs that end *)

Lemma ends_ret {A} (a : A) (p : Full.Process)
    (Q : Full.Completion A → Full.Process → Prop) :
  Q (Full.Returned a) p → Full.ends (mret a) p Q.
Proof. intros HQ. eexists _, _. split; [reflexivity | exact HQ]. Qed.

Lemma ends_bind {A B} (m : Full.Script A) (f : A → Full.Script B)
    (p : Full.Process) (Q : Full.Completion B → Full.Process → Prop) :
  Full.ends m p
    (λ c p', match c with
             | Full.Returned a => Full.ends (f a) p' Q
             | Full.Raised e => Q (Full.Raised e) p'
             end) →
  Full.ends (m ≫= f) p Q.
Proof.
  intros ([a | e] & p' & Hm & Hrest).
  - destruct Hrest as (c & p'' & Hf & HQ).
    exists c, p''. split; [ | exact HQ]. rewrite full_run_bind, Hm. exact Hf.
  - exists (Full.Raised e), p'. split; [ | exact Hrest].
    rewrite full_run_bind, Hm. reflexivity.
Qed.

Lemma ends_print (w : Full.World) (text : string) (p : Full.Process)
    (Q : Full.Completion unit → Full.Process → Prop) :
  Full.console_accepts w →
  Q (Full.Returned tt)
    {| Full.environ := Full.environ p;
       Full.history := Full.history p ++ [Full.EvPrint text] |} →
  Full.ends (Full.print w text) p Q.
Proof.
  intros Hconsole HQ. eexists _, _.
  split; [apply full_print_accepted, Hconsole | exact HQ].
Qed.

Lemma ends_time_sleep (w : Full.World) (seconds : Z) (p : Full.Process)
    (Q : Full.Completion unit → Full.Process → Prop) :
  Full.sleeps_through w →
  Q (Full.Returned tt)
    {| Full.environ := Full.environ p;
       Full.history := Full.history p ++ [Full.EvSleep seconds] |} →
  Full.ends (Full.time_sleep w seconds) p Q.
Proof.
  intros Hsleep HQ. eexists _, _. split; [ | exact HQ].
  unfold Full.time_sleep. rewrite Hsleep. reflexivity.
Qed.

Lemma ends_os_environ_set (key value : string) (p : Full.Process)
    (Q : Full.Completion unit → Full.Process → Prop) :
  Q (Full.Returned tt)
    {| Full.environ := <[key := value]> (Full.environ p);
       Full.history := Full.history p ++ [Full.EvSetEnv key value] |} →
  Full.ends (Full.os_environ_set key value) p Q.
Proof. intros HQ. eexists _, _. split; [reflexivity | exact HQ]. Qed.

Lemma ends_run_command (w : Full.World) (cmd : string) (timeout : option Z)
    (p : Full.Process)
    (Q : Full.Completion (option string) → Full.Process → Prop) :
  Full.console_accepts w →
  (∀ r : Full.Completion CompletedProcess,
     r = Full.subprocess_outcome w
           (Full.history p ++ [Full.EvPrint ("🔄 Executing: " +:+ cmd)])
           (invocation cmd (default default_timeout timeout) project_dir
              (Full.environ p)) →
     match Full.escaping r with
     | Some e =>
         Q (Full.Raised e)
           {| Full.environ := Full.environ p;
              Full.history :=
                Full.history p ++
                [ Full.EvPrint ("🔄 Executing: " +:+ cmd);
                  Full.EvSubprocess
                    (invocation cmd (default default_timeout timeout)
                       project_dir (Full.environ p)) r ] |}
     | None =>
         Q (Full.Returned (Full.result_for r))
           {| Full.environ := Full.environ p;
              Full.history :=
                Full.history p ++
                [ Full.EvPrint ("🔄 Executing: " +:+ cmd);
                  Full.EvSubprocess
                    (invocation cmd (default default_timeout timeout)
                       project_dir (Full.environ p)) r;
                  Full.EvPrint
                    (Full.line_for (default default_timeout timeout) r) ] |}
     end) →
  Full.ends (Full.run_command w cmd timeout) p Q.
Proof.
  intros Hconsole HQ.
  destruct (full_run_command_run w cmd timeout p Hconsole) as (r & Hr & Hrun).
  specialize (HQ r Hr). unfold Full.ends. rewrite Hrun.
  destruct (Full.escaping r); eexists _, _; split; try reflexivity; exact HQ.
Qed.

Lemma escaping_caught (r : Full.Completion CompletedProcess) :
  (∀ e, r = Full.Raised e → Full.is_Exception e = true) →
  Full.escaping r = None.
Proof.
  intros Honly. destruct r as [cp | e]; [reflexivity | ].
  cbn [Full.escaping]. rewrite (Honly e eq_refl). reflexivity.
Qed.

(** Follows the code along its binds in a world whose console accepts and
    whose sleeps are not interrupted; [tac r H] settles what escapes of the
    outcome [r] of a subprocess, from the equation [H] that says where [r]
    comes from. *)
Ltac full_script_step tac :=
  lazymatch goal with
  | |- Full.ends (_ ≫= _) _ _ => apply ends_bind
  | |- Full.ends (mret _) _ _ => apply ends_ret
  | |- Full.ends (Full.print _ _) _ _ => apply ends_print; [assumption | ]
  | |- Full.ends (Full.os_environ_set _ _) _ _ => apply ends_os_environ_set
  | |- Full.ends (Full.time_sleep _ _) _ _ =>
      apply ends_time_sleep; [assumption | ]
  | |- Full.ends (Full.run_command _ _ _) _ _ =>
      let r := fresh "r" in
      let H := fresh "H" r in
      apply ends_run_command; [assumption | ]; intros r H; tac r H
  | |- Full.ends (if ?c then _ else _) _ _ => destruct c
  | |- Full.ends (Full.for_each _ _) _ _ =>
      progress cbn [Full.for_each env_vars]
  | |- Full.ends (Full.set_variable _ _ _) _ _ =>
      progress cbn [Full.set_variable]
  end;
  cbv beta iota; cbn [Full.environ Full.history default].

(** ** The exit code of the script *)

(** C6, as stated, fails: an exception that [run_command] lets through is
    not caught by [main] either, and it ends the process with a status that
    is not 0.  When four subprocesses exit cleanly and the deploy call is
    interrupted from the keyboard, the script raises [KeyboardInterrupt] at
    the top level. *)
Lemma script_can_exit_nonzero :
  ¬ (∀ (w : Full.World) (env : gmap string string),
       fst (Full.script w env) = Full.Returned tt ∧
       Full.termination (fst (Full.script w env)) = Full.Exit 0).
Proof.
  intros Halways.
  destruct (Halways (Full.w_interrupted_after 4) ∅) as [Hreturn _].
  vm_compute in Hreturn. discriminate Hreturn.
Qed.

(** [main] also prints outside any [try]: on a console that cannot encode
    the banner the script ends at line 40, before any command, with a
    traceback and code 1. *)
Lemma script_exits_one_on_ascii_console :
  Full.script Full.w_ascii_console ∅ =
    (Full.Raised (Full.Exception "'ascii' codec can't encode character"),
     Full.start ∅) ∧
  Full.termination (fst (Full.script Full.w_ascii_console ∅)) = Full.Exit 1.
Proof. vm_compute. split; reflexivity. Qed.

(** An interrupt ends the process as an interrupt. *)
Lemma script_can_be_interrupted :
  Full.termination (fst (Full.script (Full.w_interrupted_after 4) ∅)) =
    Full.Interrupted ∧
  Full.commands
    (Full.history (snd (Full.script (Full.w_interrupted_after 4) ∅))) =
    [ status_command;
      set_command "NODE_ENV" "production";
      set_command "PORT" "3001";
      set_command "WEBHOOK_SECRET" "auto-alert-webhook-secret-2024";
      deploy_command ] ∧
  last (Full.printed
          (Full.history (snd (Full.script (Full.w_interrupted_after 4) ∅)))) =
    Some ("🔄 Executing: " +:+ deploy_command).
Proof. vm_compute. repeat split; reflexivity. Qed.

(** C6, amended.  When the console accepts what the script prints, no sleep
    is interrupted and the subprocess calls raise nothing but instances of
    [Exception], then whatever each of the five subprocesses does (clean
    exit, failing exit, timeout, exception) the script issues all five
    commands, returns normally, and the process exits with code 0. *)
Theorem script_exits_zero_undisturbed (w : Full.World)
    (env : gmap string string) :
  Full.console_accepts w →
  Full.sleeps_through w →
  Full.raises_Exceptions_only w →
  fst (Full.script w env) = Full.Returned tt ∧
  Full.termination (fst (Full.script w env)) = Full.Exit 0 ∧
  Full.commands (Full.history (snd (Full.script w env))) =
    [ status_command;
      set_command "NODE_ENV" "production";
      set_command "PORT" "3001";
      set_command "WEBHOOK_SECRET" "auto-alert-webhook-secret-2024";
      deploy_command ].
Proof.
  intros Hconsole Hsleep Honly.
  cut (Full.ends (Full.main w) (Full.start env)
         (λ c p',
            c = Full.Returned tt ∧
            Full.commands (Full.history p') =
              [ status_command;
                set_command "NODE_ENV" "production";
                set_command "PORT" "3001";
                set_command "WEBHOOK_SECRET" "auto-alert-webhook-secret-2024";
                deploy_command ])).
  { intros (c & p' & Hrun & -> & Hcommands).
    unfold Full.script. rewrite Hrun.
    split; [reflexivity | ]. split; [reflexivity | exact Hcommands]. }
  unfold Full.main, Full.main_body, Full.main_until_deploy, Full.main_report.
  repeat full_script_step
    ltac:(fun r H =>
            rewrite (escaping_caught r)
              by (intros ? ->; symmetry in H; exact (Honly _ _ _ H));
            clear H).
  all: split; reflexivity.
Qed.

Lemma script_exits_zero_undisturbed_witness :
  fst (Full.script Full.w_timeout ∅) = Full.Returned tt ∧
  Full.termination (fst (Full.script Full.w_timeout ∅)) = Full.Exit 0 ∧
  Full.commands (Full.history (snd (Full.script Full.w_timeout ∅))) =
    [ status_command;
      set_command "NODE_ENV" "production";
      set_command "PORT" "3001";
      set_command "WEBHOOK_SECRET" "auto-alert-webhook-secret-2024";
      deploy_command ].
Proof.
  apply (script_exits_zero_undisturbed Full.w_timeout ∅).
  - intros h text. reflexivity.
  - intros h seconds. reflexivity.
  - intros h i e He. cbn in He. injection He as <-. reflexivity.
Defined.

(** ** main and the exceptions of run_command *)







(** ** The first embedding is the second in a cooperative world *)

Lemma lower_lift_completion {A} (c : Completion A) :
  lower_completion (lift_completion c) = Some c.
Proof. destruct c as [a | [ | msg]]; reflexivity. Qed.

Lemma lower_lift_event (e : Event) : lower_event (lift_event e) = Some e.
Proof.
  destruct e as [text | key value | i r | seconds]; try reflexivity.
  cbn [lift_event lower_event]. rewrite lower_lift_completion. reflexivity.
Qed.

Lemma lower_lift_history (h : list Event) :
  omap lower_event (lift_event <$> h) = h.
Proof.
  induction h as [ | e h IH]; [reflexivity | ].
  cbn [fmap list_fmap omap list_omap]. rewrite lower_lift_event.
  fold (omap lower_event (lift_event <$> h)). rewrite IH. reflexivity.
Qed.

Lemma lift_process_record (e : Event) (p : Process) :
  Full.record (lift_event e) (lift_process p) = lift_process (record e p).
Proof.
  unfold Full.record, record, lift_process. cbn [history environ Full.history
    Full.environ]. rewrite fmap_app. reflexivity.
Qed.

Lemma simulates_ret {A} (a : A) : simulates (mret a) (mret a).
Proof. intros p. reflexivity. Qed.

Lemma simulates_bind {A B} (m' : Full.Script A) (m : Script A)
    (f' : A → Full.Script B) (f : A → Script B) :
  simulates m' m → (∀ a, simulates (f' a) (f a)) →
  simulates (m' ≫= f') (m ≫= f).
Proof.
  intros Hm Hf p. rewrite full_run_bind, run_bind, Hm.
  destruct (m p) as [[a | e] q]; cbn [fst snd lift_completion].
  - apply Hf.
  - reflexivity.
Qed.

Lemma simulates_print (os : OS) (text : string) :
  simulates (Full.print (cooperative os) text) (print text).
Proof.
  intros p. unfold Full.print, print. cbn [Full.print_error cooperative fst snd].
  rewrite <- lift_process_record. reflexivity.
Qed.

Lemma simulates_time_sleep (os : OS) (seconds : Z) :
  simulates (Full.time_sleep (cooperative os) seconds) (time_sleep seconds).
Proof.
  intros p. unfold Full.time_sleep, time_sleep.
  cbn [Full.sleep_error cooperative fst snd].
  rewrite <- lift_process_record. reflexivity.
Qed.

Lemma simulates_os_environ_set (key value : string) :
  simulates (Full.os_environ_set key value) (os_environ_set key value).
Proof.
  intros p. unfold Full.os_environ_set, os_environ_set, lift_process.
  cbn [fst snd history environ Full.history Full.environ lift_completion].
  rewrite fmap_app. reflexivity.
Qed.

Lemma simulates_subprocess_run (os : OS) (cmd : string) (timeout : Z)
    (cwd : string) :
  simulates (Full.subprocess_run (cooperative os) cmd timeout cwd)
    (subprocess_run os cmd timeout cwd).
Proof.
  intros p. unfold Full.subprocess_run, subprocess_run.
  cbn [Full.subprocess_outcome cooperative fst snd lift_process Full.history
       Full.environ].
  rewrite lower_lift_history.
  rewrite <- lift_process_record. reflexivity.
Qed.

Lemma simulates_try_except {A} (body' : Full.Script A) (body : Script A)
    (clauses : Full.PyBaseException → option (Full.Script A))
    (handler : PyException → Script A) :
  simulates body' body →
  (∀ e, ∃ handler', clauses (lift_exception e) = Some handler' ∧
                    simulates handler' (handler e)) →
  simulates (Full.try_except body' clauses) (try_except body handler).
Proof.
  intros Hbody Hclauses p. unfold Full.try_except, try_except.
  rewrite Hbody. destruct (body p) as [[a | e] q]; cbn [fst snd lift_completion].
  - reflexivity.
  - destruct (Hclauses e) as (handler' & -> & Hhandler). apply Hhandler.
Qed.

Lemma simulates_if {A} (c : bool) (m1' m2' : Full.Script A)
    (m1 m2 : Script A) :
  simulates m1' m1 → simulates m2' m2 →
  simulates (if c then m1' else m2') (if c then m1 else m2).
Proof. destruct c; auto. Qed.

Lemma simulates_for_each {A} (l : list A) (body' : A → Full.Script unit)
    (body : A → Script unit) :
  (∀ x, simulates (body' x) (body x)) →
  simulates (Full.for_each l body') (for_each l body).
Proof.
  intros Hbody. induction l as [ | x l IH]; cbn [Full.for_each for_each].
  - apply simulates_ret.
  - apply simulates_bind; [apply Hbody | intros _; exact IH].
Qed.

Lemma simulates_run_command (os : OS) (cmd : string) (timeout : option Z) :
  simulates (Full.run_command (cooperative os) cmd timeout)
    (run_command os cmd timeout).
Proof.
  unfold Full.run_command, run_command.
  apply simulates_try_except.
  - apply simulates_bind; [apply simulates_print | intros _].
    apply simulates_bind; [apply simulates_subprocess_run | intros result].
    apply simulates_if;
      (apply simulates_bind; [apply simulates_print | intros _];
       apply simulates_ret).
  - intros [ | msg]; eexists; (split; [reflexivity | ]);
      (apply simulates_bind; [apply simulates_print | intros _];
       apply simulates_ret).
Qed.

Lemma simulates_main_body (os : OS)
    (callee' : string → option Z → Full.Script (option string))
    (callee : string → option Z → Script (option string)) :
  (∀ cmd timeout, simulates (callee' cmd timeout) (callee cmd timeout)) →
  simulates (Full.main_body (cooperative os) callee') (main_body callee).
Proof.
  intros Hcallee.
  unfold Full.main_body, main_body, Full.main_until_deploy, main_until_deploy,
    Full.main_report, main_report.
  repeat first
    [ apply simulates_bind; [ | intros ? ]
    | apply simulates_print
    | apply simulates_os_environ_set
    | apply simulates_time_sleep
    | apply simulates_ret
    | apply simulates_if
    | apply Hcallee
    | apply simulates_for_each; intros [? ?]; cbn [Full.set_variable set_variable] ].
Qed.

(** In a cooperative world the two embeddings are one: a run of the script
    in the second ends as the run in the first does, with the same
    environment and the same history.  What is proved of the first embedding
    for every [os] is thereby proved of the second in those worlds. *)
Theorem script_simulates (os : OS) (env : gmap string string) :
  Full.script (cooperative os) env =
    (lift_completion (script os env).1, lift_process (script os env).2).
Proof.
  unfold Full.script, script, Full.main, main.
  apply (simulates_main_body os _ _ (simulates_run_command os) (start env)).
Qed.
